(** * Butano audio manager: deferred hardware-command queue

    A shallow embedding of [bn::audio_manager] (the command class, the
    shadow state [data], the public operations and the frame pump) and of
    the fixed-point conversions it relies on ([fixed_t], from the fixed-point
    header of the repository). *)

From Stdlib Require Import ZArith List String Bool Lia.
Import ListNotations.
Local Open Scope Z_scope.

(** ** Machine integers

    C++ [int] is 32 bits on the target.  Values are kept in [Z]; results of
    additions and multiplications are brought back into range with the
    two's-complement wrap-around the target performs, and the narrowing casts
    of the command constructor are written out. *)

Definition wrap_signed (bits z : Z) : Z :=
  (z + 2 ^ (bits - 1)) mod 2 ^ bits - 2 ^ (bits - 1).

Definition to_int (z : Z) : Z := wrap_signed 32 z.
Definition to_int16_t (z : Z) : Z := wrap_signed 16 z.
Definition to_uint16_t (z : Z) : Z := z mod 2 ^ 16.
Definition to_uint8_t (z : Z) : Z := z mod 2 ^ 8.

Definition INT_MIN : Z := - 2 ^ 31.
Definition INT_MAX : Z := 2 ^ 31 - 1.

(** C++ [min] on [int]. *)
Definition min (a b : Z) : Z := if b <? a then b else a.

(** ** fixed_t<Precision>

    [data] is the accessor the audio manager calls; the fixed-point header
    names the same accessor [value].  Integer division is C++ division,
    truncating towards zero ([Z.quot]). *)

Module fixed_t.

Record t (Precision : Z) : Type := create { data : Z }.
Arguments create {Precision} _.
Arguments data {Precision} _.

Definition precision (Precision : Z) : Z := Precision.

Definition scale (Precision : Z) : Z := Z.shiftl 1 Precision.

(** [fixed_t(int integer)] *)
Definition of_int (Precision : Z) (integer : Z) : t Precision :=
  create (to_int (integer * scale Precision)).

(** [fixed_t(fixed_t<OtherPrecision> other)] *)
Definition convert (Precision : Z) {OtherPrecision : Z}
    (other : t OtherPrecision) : t Precision :=
  create
    (if Precision <? OtherPrecision
     then Z.quot (data other) (Z.quot (scale OtherPrecision) (scale Precision))
     else to_int (data other * (scale Precision - scale OtherPrecision))).

(** [operator+(fixed_t a, fixed_t b)] *)
Definition add {Precision : Z} (a b : t Precision) : t Precision :=
  create (to_int (data a + data b)).

End fixed_t.

(** [using fixed = fixed_t<12>] *)
Definition fixed : Type := fixed_t.t 12.

(** The values an [int] field of a [fixed] can hold. *)
Definition fixed_in_range (v : fixed) : Prop :=
  INT_MIN <= fixed_t.data v <= INT_MAX.

(** ** Hardware-scale conversions *)

(** The value of [v] written with [bits] fraction bits instead of 12,
    rounded towards zero: the reading of "rescaled to a [bits]-fraction-bit
    representation". *)
Definition rescaled (bits : Z) (v : fixed) : Z :=
  Z.quot (fixed_t.data v) (2 ^ (12 - bits)).

Definition _hw_music_volume (volume : fixed) : Z :=
  fixed_t.data (fixed_t.convert 10 volume).

Definition _hw_sound_volume (volume : fixed) : Z :=
  min (fixed_t.data (fixed_t.convert 8 volume)) 255.

Definition _hw_dmg_music_volume (volume : fixed) : Z :=
  fixed_t.data (fixed_t.convert 3 volume).

Definition _hw_sound_speed (speed : fixed) : Z :=
  min (fixed_t.data (fixed_t.convert 10 speed)) 65535.

Definition _hw_sound_panning (panning : fixed) : Z :=
  min (fixed_t.data
         (fixed_t.convert 7 (fixed_t.add panning (fixed_t.of_int 12 1)))) 255.

(** ** Fatal assertions

    [BN_ASSERT] and [BN_ERROR] stop the program with a message.  An operation
    that may assert returns an [outcome]: [Ok] with its result, or [Fatal]
    with the message of the first assertion that failed. *)

Inductive outcome (A : Type) : Type :=
| Ok : A -> outcome A
| Fatal : string -> outcome A.
Arguments Ok {A} _.
Arguments Fatal {A} _.

Definition bind {A B : Type} (m : outcome A) (k : A -> outcome B) : outcome B :=
  match m with
  | Ok a => k a
  | Fatal msg => Fatal msg
  end.

Notation "x <- m ;; k" := (bind m (fun x => k))
  (at level 61, m at next level, right associativity).
Notation "m ;;; k" := (bind m (fun _ => k))
  (at level 61, right associativity).

Definition BN_ASSERT (condition : bool) (message : string) : outcome unit :=
  if condition then Ok tt else Fatal message.

Definition succeeds {A : Type} (m : outcome A) : bool :=
  match m with Ok _ => true | Fatal _ => false end.

Definition is_fatal {A : Type} (m : outcome A) : bool := negb (succeeds m).

(** ** Asset handles and tracker positions *)

(** Modelled from the spec: the music item type (an opaque identifier);
    its header is not among the sources at hand. *)
Module music_item.
Record t : Type := mk { id : Z }.
End music_item.

(** Modelled from the spec: the sound item type (an opaque identifier). *)
Module sound_item.
Record t : Type := mk { id : Z }.
End sound_item.

(** Pointers are addresses; [nullptr] is address 0. *)
Definition nullptr : Z := 0.

Definition non_null (p : Z) : bool := negb (p =? nullptr).

(** Modelled from the spec: the DMG music item type (a data handle). *)
Module dmg_music_item.
Record t : Type := mk { data_ptr : Z }.
End dmg_music_item.

(** Modelled from the spec: the tracker position, a pattern and a row; the
    default position is the zero value. *)
Module dmg_music_position.
Record t : Type := mk { pattern : Z; row : Z }.
Definition default : t := mk 0 0.
End dmg_music_position.

(** ** The hardware audio driver *)

Module hw.
Module audio.

(** Modelled from the spec: the driver ([hw::audio]) is an external
    collaborator whose implementation is not among the sources; it is an
    interface over an abstract hardware state [H], one primitive per command
    variant plus the queries and lifecycle hooks the audio manager
    delegates to. *)
Class driver (H : Type) : Type := {
  init : Z -> Z -> H -> H;
  enable : H -> H;
  disable : H -> H;
  play_music : Z -> Z -> bool -> H -> H;
  stop_music : H -> H;
  pause_music : H -> H;
  resume_music : H -> H;
  set_music_position : Z -> H -> H;
  set_music_volume : Z -> H -> H;
  play_dmg_music : Z -> Z -> bool -> H -> H;
  stop_dmg_music : H -> H;
  pause_dmg_music : H -> H;
  resume_dmg_music : H -> H;
  set_dmg_music_position : Z -> Z -> H -> H;
  set_dmg_music_volume : Z -> Z -> H -> H;
  play_sound : Z -> Z -> H -> H;
  play_sound_ex : Z -> Z -> Z -> Z -> Z -> H -> H;
  stop_all_sounds : H -> H;
  music_playing : H -> bool;
  music_position : H -> Z;
  dmg_music_position : H -> Z * Z;
  update_on_vblank : H -> bool;
  set_update_on_vblank : bool -> H -> H;
  disable_vblank_handler : H -> H;
  update : H -> H;
  commit : H -> H
}.

End audio.
End hw.

(** ** class command *)

Module command.

Inductive type : Type :=
| MUSIC_PLAY
| MUSIC_STOP
| MUSIC_PAUSE
| MUSIC_RESUME
| MUSIC_SET_POSITION
| MUSIC_SET_VOLUME
| DMG_MUSIC_PLAY
| DMG_MUSIC_STOP
| DMG_MUSIC_PAUSE
| DMG_MUSIC_RESUME
| DMG_MUSIC_SET_POSITION
| DMG_MUSIC_SET_VOLUME
| SOUND_PLAY
| SOUND_PLAY_EX
| SOUND_STOP_ALL.

Record t : Type := mk {
  _id : Z;
  _priority : Z;
  _volume : Z;
  _speed : Z;
  _type : type;
  _panning : Z;
  _loop : bool
}.

(** The private constructor, with its narrowing casts; the factories below
    spell out the default arguments they leave to it. *)
Definition command (command_type : type) (id priority volume : Z)
    (loop : bool) (speed panning : Z) : t :=
  {| _id := id;
     _priority := priority;
     _volume := to_uint16_t volume;
     _speed := to_uint16_t speed;
     _type := command_type;
     _panning := to_uint8_t panning;
     _loop := loop |}.

Definition music_play (item : music_item.t) (loop : bool) (volume : Z) : t :=
  command MUSIC_PLAY (music_item.id item) 0 volume loop 0 0.

Definition music_stop : t := command MUSIC_STOP 0 0 0 false 0 0.

Definition music_pause : t := command MUSIC_PAUSE 0 0 0 false 0 0.

Definition music_resume : t := command MUSIC_RESUME 0 0 0 false 0 0.

Definition music_set_position (position : Z) : t :=
  command MUSIC_SET_POSITION position 0 0 false 0 0.

Definition music_set_volume (volume : Z) : t :=
  command MUSIC_SET_VOLUME 0 0 volume false 0 0.

Definition dmg_music_play (item : dmg_music_item.t) (loop : bool)
    (speed : Z) : t :=
  command DMG_MUSIC_PLAY (to_int (dmg_music_item.data_ptr item)) 0 speed loop 0 0.

Definition dmg_music_stop : t := command DMG_MUSIC_STOP 0 0 0 false 0 0.

Definition dmg_music_pause : t := command DMG_MUSIC_PAUSE 0 0 0 false 0 0.

Definition dmg_music_resume : t := command DMG_MUSIC_RESUME 0 0 0 false 0 0.

Definition dmg_music_set_position (position : dmg_music_position.t) : t :=
  command DMG_MUSIC_SET_POSITION (dmg_music_position.pattern position) 0
    (dmg_music_position.row position) false 0 0.

Definition dmg_music_set_volume (left_volume right_volume : Z) : t :=
  command DMG_MUSIC_SET_VOLUME 0 0 left_volume false right_volume 0.

Definition sound_play (priority : Z) (item : sound_item.t) : t :=
  command SOUND_PLAY (sound_item.id item) (to_int16_t priority) 0 false 0 0.

Definition sound_play_ex (priority : Z) (item : sound_item.t)
    (volume speed panning : Z) : t :=
  command SOUND_PLAY_EX (sound_item.id item) (to_int16_t priority) volume
    false speed panning.

Definition sound_stop_all : t := command SOUND_STOP_ALL 0 0 0 false 0 0.

(** [execute]: one driver primitive per tag.  The tag is a value of the
    enumeration, so the [default:] branch of the switch has no case here. *)
Definition execute {H : Type} {drv : hw.audio.driver H} (c : t) (h : H) : H :=
  match _type c with
  | MUSIC_PLAY => hw.audio.play_music (_id c) (_volume c) (_loop c) h
  | MUSIC_STOP => hw.audio.stop_music h
  | MUSIC_PAUSE => hw.audio.pause_music h
  | MUSIC_RESUME => hw.audio.resume_music h
  | MUSIC_SET_POSITION => hw.audio.set_music_position (_id c) h
  | MUSIC_SET_VOLUME => hw.audio.set_music_volume (_volume c) h
  | DMG_MUSIC_PLAY => hw.audio.play_dmg_music (_id c) (_volume c) (_loop c) h
  | DMG_MUSIC_STOP => hw.audio.stop_dmg_music h
  | DMG_MUSIC_PAUSE => hw.audio.pause_dmg_music h
  | DMG_MUSIC_RESUME => hw.audio.resume_dmg_music h
  | DMG_MUSIC_SET_POSITION => hw.audio.set_dmg_music_position (_id c) (_volume c) h
  | DMG_MUSIC_SET_VOLUME => hw.audio.set_dmg_music_volume (_volume c) (_speed c) h
  | SOUND_PLAY => hw.audio.play_sound (_priority c) (_id c) h
  | SOUND_PLAY_EX =>
      hw.audio.play_sound_ex (_priority c) (_id c) (_volume c) (_speed c)
        (_panning c) h
  | SOUND_STOP_ALL => hw.audio.stop_all_sounds h
  end.

Definition type_eqb (a b : type) : bool :=
  match a, b with
  | MUSIC_PLAY, MUSIC_PLAY | MUSIC_STOP, MUSIC_STOP
  | MUSIC_PAUSE, MUSIC_PAUSE | MUSIC_RESUME, MUSIC_RESUME
  | MUSIC_SET_POSITION, MUSIC_SET_POSITION
  | MUSIC_SET_VOLUME, MUSIC_SET_VOLUME
  | DMG_MUSIC_PLAY, DMG_MUSIC_PLAY | DMG_MUSIC_STOP, DMG_MUSIC_STOP
  | DMG_MUSIC_PAUSE, DMG_MUSIC_PAUSE | DMG_MUSIC_RESUME, DMG_MUSIC_RESUME
  | DMG_MUSIC_SET_POSITION, DMG_MUSIC_SET_POSITION
  | DMG_MUSIC_SET_VOLUME, DMG_MUSIC_SET_VOLUME
  | SOUND_PLAY, SOUND_PLAY | SOUND_PLAY_EX, SOUND_PLAY_EX
  | SOUND_STOP_ALL, SOUND_STOP_ALL => true
  | _, _ => false
  end.

End command.

(** ** Configuration

    [BN_CFG_AUDIO_MAX_COMMANDS] comes from the audio configuration header;
    it is a parameter here.  The [static_assert] of the audio manager is the
    proposition [max_commands_valid]. *)

Class audio_config : Type := { BN_CFG_AUDIO_MAX_COMMANDS : nat }.

Definition max_commands_valid {cfg : audio_config} : Prop :=
  (2 < BN_CFG_AUDIO_MAX_COMMANDS)%nat.

(** ** class static_data, and its instance [data] *)

Module data.

Record static_data : Type := mk {
  commands : list command.t;
  music_volume : fixed;
  dmg_music_position : dmg_music_position.t;
  dmg_music_left_volume : fixed;
  dmg_music_right_volume : fixed;
  music_item_id : Z;
  music_position : Z;
  dmg_music_data : Z;
  music_playing : bool;
  music_paused : bool;
  dmg_music_paused : bool
}.

(** The state at process start: the default member initialisers. *)
Definition initial : static_data :=
  {| commands := [];
     music_volume := fixed_t.create 0;
     dmg_music_position := dmg_music_position.default;
     dmg_music_left_volume := fixed_t.create 0;
     dmg_music_right_volume := fixed_t.create 0;
     music_item_id := 0;
     music_position := 0;
     dmg_music_data := nullptr;
     music_playing := false;
     music_paused := false;
     dmg_music_paused := false |}.

(** Assignments to single members. *)
Definition set_commands (x : list command.t) (d : static_data) :=
  mk x (music_volume d) (dmg_music_position d) (dmg_music_left_volume d)
     (dmg_music_right_volume d) (music_item_id d) (music_position d)
     (dmg_music_data d) (music_playing d) (music_paused d) (dmg_music_paused d).
Definition set_music_volume (x : fixed) (d : static_data) :=
  mk (commands d) x (dmg_music_position d) (dmg_music_left_volume d)
     (dmg_music_right_volume d) (music_item_id d) (music_position d)
     (dmg_music_data d) (music_playing d) (music_paused d) (dmg_music_paused d).
Definition set_dmg_music_position (x : dmg_music_position.t) (d : static_data) :=
  mk (commands d) (music_volume d) x (dmg_music_left_volume d)
     (dmg_music_right_volume d) (music_item_id d) (music_position d)
     (dmg_music_data d) (music_playing d) (music_paused d) (dmg_music_paused d).
Definition set_dmg_music_left_volume (x : fixed) (d : static_data) :=
  mk (commands d) (music_volume d) (dmg_music_position d) x
     (dmg_music_right_volume d) (music_item_id d) (music_position d)
     (dmg_music_data d) (music_playing d) (music_paused d) (dmg_music_paused d).
Definition set_dmg_music_right_volume (x : fixed) (d : static_data) :=
  mk (commands d) (music_volume d) (dmg_music_position d)
     (dmg_music_left_volume d) x (music_item_id d) (music_position d)
     (dmg_music_data d) (music_playing d) (music_paused d) (dmg_music_paused d).
Definition set_music_item_id (x : Z) (d : static_data) :=
  mk (commands d) (music_volume d) (dmg_music_position d)
     (dmg_music_left_volume d) (dmg_music_right_volume d) x (music_position d)
     (dmg_music_data d) (music_playing d) (music_paused d) (dmg_music_paused d).
Definition set_music_position (x : Z) (d : static_data) :=
  mk (commands d) (music_volume d) (dmg_music_position d)
     (dmg_music_left_volume d) (dmg_music_right_volume d) (music_item_id d) x
     (dmg_music_data d) (music_playing d) (music_paused d) (dmg_music_paused d).
Definition set_dmg_music_data (x : Z) (d : static_data) :=
  mk (commands d) (music_volume d) (dmg_music_position d)
     (dmg_music_left_volume d) (dmg_music_right_volume d) (music_item_id d)
     (music_position d) x (music_playing d) (music_paused d) (dmg_music_paused d).
Definition set_music_playing (x : bool) (d : static_data) :=
  mk (commands d) (music_volume d) (dmg_music_position d)
     (dmg_music_left_volume d) (dmg_music_right_volume d) (music_item_id d)
     (music_position d) (dmg_music_data d) x (music_paused d) (dmg_music_paused d).
Definition set_music_paused (x : bool) (d : static_data) :=
  mk (commands d) (music_volume d) (dmg_music_position d)
     (dmg_music_left_volume d) (dmg_music_right_volume d) (music_item_id d)
     (music_position d) (dmg_music_data d) (music_playing d) x (dmg_music_paused d).
Definition set_dmg_music_paused (x : bool) (d : static_data) :=
  mk (commands d) (music_volume d) (dmg_music_position d)
     (dmg_music_left_volume d) (dmg_music_right_volume d) (music_item_id d)
     (music_position d) (dmg_music_data d) (music_playing d) (music_paused d) x.

End data.

(** ** The bounded vector of commands *)

(** [vector::full]: the size has reached the capacity. *)
Definition full {cfg : audio_config} (commands : list command.t) : bool :=
  (List.length commands =? BN_CFG_AUDIO_MAX_COMMANDS)%nat.

(** [data.commands.push_back(c)]; every caller asserts [! full()] first. *)
Definition push_back (c : command.t) (d : data.static_data) : data.static_data :=
  data.set_commands (data.commands d ++ [c]) d.

(** ** Public operations of the audio manager

    Operations that only touch the shadow state and the queue are functions
    of [data.static_data]; the frame pump also threads the hardware state. *)

Section AudioManager.

Context {cfg : audio_config}.

Definition music_playing (d : data.static_data) : bool :=
  data.music_playing d.

Definition playing_music_item (d : data.static_data) : option music_item.t :=
  if data.music_playing d
  then Some (music_item.mk (data.music_item_id d))
  else None.

Definition play_music (item : music_item.t) (volume : fixed) (loop : bool)
    (d : data.static_data) : outcome data.static_data :=
  BN_ASSERT (negb (full (data.commands d))) "No more audio commands available" ;;;
  let d := push_back (command.music_play item loop (_hw_music_volume volume)) d in
  let d := data.set_music_item_id (music_item.id item) d in
  let d := data.set_music_position 0 d in
  let d := data.set_music_volume volume d in
  let d := data.set_music_playing true d in
  let d := data.set_music_paused false d in
  Ok d.

Definition stop_music (d : data.static_data) : outcome data.static_data :=
  BN_ASSERT (data.music_playing d) "There's no music playing" ;;;
  BN_ASSERT (negb (full (data.commands d))) "No more audio commands available" ;;;
  let d := push_back command.music_stop d in
  let d := data.set_music_playing false d in
  let d := data.set_music_paused false d in
  Ok d.

Definition music_paused (d : data.static_data) : bool :=
  data.music_paused d.

Definition pause_music (d : data.static_data) : outcome data.static_data :=
  BN_ASSERT (data.music_playing d) "There's no music playing" ;;;
  BN_ASSERT (negb (data.music_paused d)) "Music is already paused" ;;;
  BN_ASSERT (negb (full (data.commands d))) "No more audio commands available" ;;;
  let d := push_back command.music_pause d in
  let d := data.set_music_paused true d in
  Ok d.

Definition resume_music (d : data.static_data) : outcome data.static_data :=
  BN_ASSERT (data.music_paused d) "Music is not paused" ;;;
  BN_ASSERT (negb (full (data.commands d))) "No more audio commands available" ;;;
  let d := push_back command.music_resume d in
  let d := data.set_music_paused false d in
  Ok d.

Definition music_position (d : data.static_data) : outcome Z :=
  BN_ASSERT (data.music_playing d) "There's no music playing" ;;;
  Ok (data.music_position d).

Definition set_music_position (position : Z) (d : data.static_data)
    : outcome data.static_data :=
  BN_ASSERT (data.music_playing d) "There's no music playing" ;;;
  BN_ASSERT (negb (full (data.commands d))) "No more audio commands available" ;;;
  let d := push_back (command.music_set_position position) d in
  let d := data.set_music_position position d in
  Ok d.

Definition music_volume (d : data.static_data) : outcome fixed :=
  BN_ASSERT (data.music_playing d) "There's no music playing" ;;;
  Ok (data.music_volume d).

Definition set_music_volume (volume : fixed) (d : data.static_data)
    : outcome data.static_data :=
  BN_ASSERT (data.music_playing d) "There's no music playing" ;;;
  BN_ASSERT (negb (full (data.commands d))) "No more audio commands available" ;;;
  let d := push_back (command.music_set_volume (_hw_music_volume volume)) d in
  let d := data.set_music_volume volume d in
  Ok d.

Definition dmg_music_playing (d : data.static_data) : bool :=
  non_null (data.dmg_music_data d).

Definition playing_dmg_music_item (d : data.static_data)
    : option dmg_music_item.t :=
  if non_null (data.dmg_music_data d)
  then Some (dmg_music_item.mk (data.dmg_music_data d))
  else None.

Definition play_dmg_music (item : dmg_music_item.t) (speed : Z) (loop : bool)
    (d : data.static_data) : outcome data.static_data :=
  BN_ASSERT (negb (full (data.commands d))) "No more audio commands available" ;;;
  let d := push_back (command.dmg_music_play item loop speed) d in
  let d := data.set_dmg_music_position dmg_music_position.default d in
  let d := data.set_dmg_music_left_volume (fixed_t.of_int 12 1) d in
  let d := data.set_dmg_music_right_volume (fixed_t.of_int 12 1) d in
  let d := data.set_dmg_music_data (dmg_music_item.data_ptr item) d in
  let d := data.set_dmg_music_paused false d in
  Ok d.

Definition stop_dmg_music (d : data.static_data) : outcome data.static_data :=
  BN_ASSERT (non_null (data.dmg_music_data d)) "There's no DMG music playing" ;;;
  BN_ASSERT (negb (full (data.commands d))) "No more audio commands available" ;;;
  let d := push_back command.dmg_music_stop d in
  let d := data.set_dmg_music_data nullptr d in
  let d := data.set_dmg_music_paused false d in
  Ok d.

Definition dmg_music_paused (d : data.static_data) : bool :=
  data.dmg_music_paused d.

Definition pause_dmg_music (d : data.static_data) : outcome data.static_data :=
  BN_ASSERT (non_null (data.dmg_music_data d)) "There's no DMG music playing" ;;;
  BN_ASSERT (negb (data.dmg_music_paused d)) "DMG music is already paused" ;;;
  BN_ASSERT (negb (full (data.commands d))) "No more audio commands available" ;;;
  let d := push_back command.dmg_music_pause d in
  let d := data.set_dmg_music_paused true d in
  Ok d.

Definition resume_dmg_music (d : data.static_data) : outcome data.static_data :=
  BN_ASSERT (data.dmg_music_paused d) "DMG music is not paused" ;;;
  BN_ASSERT (negb (full (data.commands d))) "No more audio commands available" ;;;
  let d := push_back command.dmg_music_resume d in
  let d := data.set_dmg_music_paused false d in
  Ok d.

Definition dmg_music_position (d : data.static_data)
    : outcome dmg_music_position.t :=
  BN_ASSERT (non_null (data.dmg_music_data d)) "There's no DMG music playing" ;;;
  Ok (data.dmg_music_position d).

Definition set_dmg_music_position (position : dmg_music_position.t)
    (d : data.static_data) : outcome data.static_data :=
  BN_ASSERT (non_null (data.dmg_music_data d)) "There's no DMG music playing" ;;;
  BN_ASSERT (negb (full (data.commands d))) "No more audio commands available" ;;;
  let d := push_back (command.dmg_music_set_position position) d in
  let d := data.set_dmg_music_position position d in
  Ok d.

Definition dmg_music_left_volume (d : data.static_data) : outcome fixed :=
  BN_ASSERT (non_null (data.dmg_music_data d)) "There's no DMG music playing" ;;;
  Ok (data.dmg_music_left_volume d).

Definition dmg_music_right_volume (d : data.static_data) : outcome fixed :=
  BN_ASSERT (non_null (data.dmg_music_data d)) "There's no DMG music playing" ;;;
  Ok (data.dmg_music_right_volume d).

Definition set_dmg_music_volume (left_volume right_volume : fixed)
    (d : data.static_data) : outcome data.static_data :=
  BN_ASSERT (non_null (data.dmg_music_data d)) "There's no DMG music playing" ;;;
  BN_ASSERT (negb (full (data.commands d))) "No more audio commands available" ;;;
  let d := push_back (command.dmg_music_set_volume
                        (_hw_dmg_music_volume left_volume)
                        (_hw_dmg_music_volume right_volume)) d in
  let d := data.set_dmg_music_left_volume left_volume d in
  let d := data.set_dmg_music_right_volume right_volume d in
  Ok d.

Definition set_dmg_music_left_volume (left_volume : fixed)
    (d : data.static_data) : outcome data.static_data :=
  set_dmg_music_volume left_volume (data.dmg_music_right_volume d) d.

Definition set_dmg_music_right_volume (right_volume : fixed)
    (d : data.static_data) : outcome data.static_data :=
  set_dmg_music_volume (data.dmg_music_left_volume d) right_volume d.

Definition play_sound (priority : Z) (item : sound_item.t)
    (d : data.static_data) : outcome data.static_data :=
  BN_ASSERT (negb (full (data.commands d))) "No more audio commands available" ;;;
  Ok (push_back (command.sound_play priority item) d).

Definition play_sound_ex (priority : Z) (item : sound_item.t)
    (volume speed panning : fixed) (d : data.static_data)
    : outcome data.static_data :=
  BN_ASSERT (negb (full (data.commands d))) "No more audio commands available" ;;;
  Ok (push_back (command.sound_play_ex priority item (_hw_sound_volume volume)
                   (_hw_sound_speed speed) (_hw_sound_panning panning)) d).

Definition stop_all_sounds (d : data.static_data) : outcome data.static_data :=
  BN_ASSERT (negb (full (data.commands d))) "No more audio commands available" ;;;
  Ok (push_back command.sound_stop_all d).

Definition stop (d : data.static_data) : outcome data.static_data :=
  let d := data.set_commands [] d in
  d <- (if data.music_playing d then stop_music d else Ok d) ;;
  stop_all_sounds d.

(** The state [stop] ends in when neither of its two capacity checks fails. *)
Definition stopped (d : data.static_data) : data.static_data :=
  let d0 := data.set_commands [] d in
  if data.music_playing d
  then push_back command.sound_stop_all
         (data.set_music_paused false
            (data.set_music_playing false (push_back command.music_stop d0)))
  else push_back command.sound_stop_all d0.

(** *** The frame pump, over a hardware driver *)

Context {H : Type} {drv : hw.audio.driver H}.

(** The range-for loop of [update]: each command executed once, front to
    back. *)
Fixpoint execute_all (commands : list command.t) (h : H) : H :=
  match commands with
  | [] => h
  | c :: rest => execute_all rest (command.execute c h)
  end.

Definition update (w : data.static_data * H) : data.static_data * H :=
  let (d, h) := w in
  let h := hw.audio.update h in
  let h := execute_all (data.commands d) h in
  let d := data.set_commands [] d in
  let d :=
    if data.music_playing d && hw.audio.music_playing h
    then data.set_music_position (hw.audio.music_position h) d
    else d in
  let d :=
    if non_null (data.dmg_music_data d)
    then
      let (pattern, row) := hw.audio.dmg_music_position h in
      if pattern >=? 0
      then data.set_dmg_music_position (dmg_music_position.mk pattern row) d
      else d
    else d in
  (d, h).

Definition commit (w : data.static_data * H) : data.static_data * H :=
  (fst w, hw.audio.commit (snd w)).

(** Lifecycle hooks: delegated to the driver, the shadow state untouched. *)
Definition init (hp_vblank_function lp_vblank_function : Z)
    (w : data.static_data * H) : data.static_data * H :=
  (fst w, hw.audio.init hp_vblank_function lp_vblank_function (snd w)).

Definition enable (w : data.static_data * H) : data.static_data * H :=
  (fst w, hw.audio.enable (snd w)).

Definition disable (w : data.static_data * H) : data.static_data * H :=
  (fst w, hw.audio.disable (snd w)).

Definition update_on_vblank (w : data.static_data * H) : bool :=
  hw.audio.update_on_vblank (snd w).

Definition set_update_on_vblank (update_on_vblank : bool)
    (w : data.static_data * H) : data.static_data * H :=
  (fst w, hw.audio.set_update_on_vblank update_on_vblank (snd w)).

Definition disable_vblank_handler (w : data.static_data * H)
    : data.static_data * H :=
  (fst w, hw.audio.disable_vblank_handler (snd w)).

(** *** Sequences of public operations *)

Inductive operation : Type :=
| op_init (hp_vblank_function lp_vblank_function : Z)
| op_enable
| op_disable
| op_play_music (item : music_item.t) (volume : fixed) (loop : bool)
| op_stop_music
| op_pause_music
| op_resume_music
| op_music_position
| op_set_music_position (position : Z)
| op_music_volume
| op_set_music_volume (volume : fixed)
| op_play_dmg_music (item : dmg_music_item.t) (speed : Z) (loop : bool)
| op_stop_dmg_music
| op_pause_dmg_music
| op_resume_dmg_music
| op_dmg_music_position
| op_set_dmg_music_position (position : dmg_music_position.t)
| op_dmg_music_left_volume
| op_dmg_music_right_volume
| op_set_dmg_music_left_volume (left_volume : fixed)
| op_set_dmg_music_right_volume (right_volume : fixed)
| op_set_dmg_music_volume (left_volume right_volume : fixed)
| op_play_sound (priority : Z) (item : sound_item.t)
| op_play_sound_ex (priority : Z) (item : sound_item.t)
    (volume speed panning : fixed)
| op_stop_all_sounds
| op_set_update_on_vblank (update_on_vblank : bool)
| op_disable_vblank_handler
| op_update
| op_commit
| op_stop.

(** The operations whose own body pushes a command. *)
Definition enqueues (o : operation) : bool :=
  match o with
  | op_play_music _ _ _ | op_stop_music | op_pause_music | op_resume_music
  | op_set_music_position _ | op_set_music_volume _
  | op_play_dmg_music _ _ _ | op_stop_dmg_music | op_pause_dmg_music
  | op_resume_dmg_music | op_set_dmg_music_position _
  | op_set_dmg_music_left_volume _ | op_set_dmg_music_right_volume _
  | op_set_dmg_music_volume _ _
  | op_play_sound _ _ | op_play_sound_ex _ _ _ _ _ | op_stop_all_sounds => true
  | _ => false
  end.

Definition on_data (f : data.static_data -> outcome data.static_data)
    (w : data.static_data * H) : outcome (data.static_data * H) :=
  d <- f (fst w) ;; Ok (d, snd w).

Definition on_query {A : Type} (q : data.static_data -> outcome A)
    (w : data.static_data * H) : outcome (data.static_data * H) :=
  q (fst w) ;;; Ok w.

Definition step (o : operation) (w : data.static_data * H)
    : outcome (data.static_data * H) :=
  match o with
  | op_init hp lp => Ok (init hp lp w)
  | op_enable => Ok (enable w)
  | op_disable => Ok (disable w)
  | op_play_music item volume loop => on_data (play_music item volume loop) w
  | op_stop_music => on_data stop_music w
  | op_pause_music => on_data pause_music w
  | op_resume_music => on_data resume_music w
  | op_music_position => on_query music_position w
  | op_set_music_position position => on_data (set_music_position position) w
  | op_music_volume => on_query music_volume w
  | op_set_music_volume volume => on_data (set_music_volume volume) w
  | op_play_dmg_music item speed loop => on_data (play_dmg_music item speed loop) w
  | op_stop_dmg_music => on_data stop_dmg_music w
  | op_pause_dmg_music => on_data pause_dmg_music w
  | op_resume_dmg_music => on_data resume_dmg_music w
  | op_dmg_music_position => on_query dmg_music_position w
  | op_set_dmg_music_position position =>
      on_data (set_dmg_music_position position) w
  | op_dmg_music_left_volume => on_query dmg_music_left_volume w
  | op_dmg_music_right_volume => on_query dmg_music_right_volume w
  | op_set_dmg_music_left_volume v => on_data (set_dmg_music_left_volume v) w
  | op_set_dmg_music_right_volume v => on_data (set_dmg_music_right_volume v) w
  | op_set_dmg_music_volume l r => on_data (set_dmg_music_volume l r) w
  | op_play_sound priority item => on_data (play_sound priority item) w
  | op_play_sound_ex priority item volume speed panning =>
      on_data (play_sound_ex priority item volume speed panning) w
  | op_stop_all_sounds => on_data stop_all_sounds w
  | op_set_update_on_vblank b => Ok (set_update_on_vblank b w)
  | op_disable_vblank_handler => Ok (disable_vblank_handler w)
  | op_update => Ok (update w)
  | op_commit => Ok (commit w)
  | op_stop => on_data stop w
  end.

(** A caller's sequence of operations; it stops at the first fatal
    assertion. *)
Fixpoint run (ops : list operation) (w : data.static_data * H)
    : outcome (data.static_data * H) :=
  match ops with
  | [] => Ok w
  | o :: rest => w' <- step o w ;; run rest w'
  end.

(** States reached from process start by operations that meet their
    preconditions. *)
Inductive reachable : data.static_data * H -> Prop :=
| reachable_start : forall h, reachable (data.initial, h)
| reachable_step : forall o w w',
    reachable w -> step o w = Ok w' -> reachable w'.

(** *** Invariants of the shadow state *)

Definition queue_within_capacity (d : data.static_data) : Prop :=
  (List.length (data.commands d) <= BN_CFG_AUDIO_MAX_COMMANDS)%nat.

Definition paused_implies_playing (d : data.static_data) : Prop :=
  data.music_paused d = true -> data.music_playing d = true.

Definition dmg_paused_implies_handle (d : data.static_data) : Prop :=
  data.dmg_music_paused d = true -> data.dmg_music_data d <> nullptr.

Definition count_type (ty : command.type) (commands : list command.t) : nat :=
  List.length (filter (fun c => command.type_eqb (command._type c) ty) commands).

End AudioManager.

(** ** A recording driver

    A driver instance that keeps the sequence of primitives invoked on it and
    answers the queries from fixed reports: what a caller of the driver can
    observe of a flush. *)
Module recorder.

Inductive call : Type :=
| Init (hp lp : Z)
| Enable
| Disable
| PlayMusic (id volume : Z) (loop : bool)
| StopMusic
| PauseMusic
| ResumeMusic
| SetMusicPosition (position : Z)
| SetMusicVolume (volume : Z)
| PlayDmgMusic (data speed : Z) (loop : bool)
| StopDmgMusic
| PauseDmgMusic
| ResumeDmgMusic
| SetDmgMusicPosition (pattern row : Z)
| SetDmgMusicVolume (left_volume right_volume : Z)
| PlaySound (priority id : Z)
| PlaySoundEx (priority id volume speed panning : Z)
| StopAllSounds
| SetUpdateOnVblank (b : bool)
| DisableVblankHandler
| Update
| Commit.

Record t : Type := mk {
  calls : list call;
  reports_music_playing : bool;
  reports_music_position : Z;
  reports_dmg_music_position : Z * Z;
  reports_update_on_vblank : bool
}.

Definition record (c : call) (h : t) : t :=
  mk (calls h ++ [c]) (reports_music_playing h) (reports_music_position h)
     (reports_dmg_music_position h) (reports_update_on_vblank h).

#[global] Instance driver : hw.audio.driver t := {|
  hw.audio.init := fun hp lp => record (Init hp lp);
  hw.audio.enable := record Enable;
  hw.audio.disable := record Disable;
  hw.audio.play_music := fun id volume loop => record (PlayMusic id volume loop);
  hw.audio.stop_music := record StopMusic;
  hw.audio.pause_music := record PauseMusic;
  hw.audio.resume_music := record ResumeMusic;
  hw.audio.set_music_position := fun p => record (SetMusicPosition p);
  hw.audio.set_music_volume := fun v => record (SetMusicVolume v);
  hw.audio.play_dmg_music := fun p s l => record (PlayDmgMusic p s l);
  hw.audio.stop_dmg_music := record StopDmgMusic;
  hw.audio.pause_dmg_music := record PauseDmgMusic;
  hw.audio.resume_dmg_music := record ResumeDmgMusic;
  hw.audio.set_dmg_music_position := fun p r => record (SetDmgMusicPosition p r);
  hw.audio.set_dmg_music_volume := fun l r => record (SetDmgMusicVolume l r);
  hw.audio.play_sound := fun pr id => record (PlaySound pr id);
  hw.audio.play_sound_ex := fun pr id v s p => record (PlaySoundEx pr id v s p);
  hw.audio.stop_all_sounds := record StopAllSounds;
  hw.audio.music_playing := reports_music_playing;
  hw.audio.music_position := reports_music_position;
  hw.audio.dmg_music_position := reports_dmg_music_position;
  hw.audio.update_on_vblank := reports_update_on_vblank;
  hw.audio.set_update_on_vblank := fun b => record (SetUpdateOnVblank b);
  hw.audio.disable_vblank_handler := record DisableVblankHandler;
  hw.audio.update := record Update;
  hw.audio.commit := record Commit
|}.

(** The primitive a command invokes when executed. *)
Definition call_of (c : command.t) : call :=
  match command._type c with
  | command.MUSIC_PLAY =>
      PlayMusic (command._id c) (command._volume c) (command._loop c)
  | command.MUSIC_STOP => StopMusic
  | command.MUSIC_PAUSE => PauseMusic
  | command.MUSIC_RESUME => ResumeMusic
  | command.MUSIC_SET_POSITION => SetMusicPosition (command._id c)
  | command.MUSIC_SET_VOLUME => SetMusicVolume (command._volume c)
  | command.DMG_MUSIC_PLAY =>
      PlayDmgMusic (command._id c) (command._volume c) (command._loop c)
  | command.DMG_MUSIC_STOP => StopDmgMusic
  | command.DMG_MUSIC_PAUSE => PauseDmgMusic
  | command.DMG_MUSIC_RESUME => ResumeDmgMusic
  | command.DMG_MUSIC_SET_POSITION =>
      SetDmgMusicPosition (command._id c) (command._volume c)
  | command.DMG_MUSIC_SET_VOLUME =>
      SetDmgMusicVolume (command._volume c) (command._speed c)
  | command.SOUND_PLAY => PlaySound (command._priority c) (command._id c)
  | command.SOUND_PLAY_EX =>
      PlaySoundEx (command._priority c) (command._id c) (command._volume c)
        (command._speed c) (command._panning c)
  | command.SOUND_STOP_ALL => StopAllSounds
  end.

Definition silent : t := mk [] false 0 (-1, 0) false.

End recorder.

(** ** Concrete configuration and states used as examples *)

(** The engine's default capacity. *)
Definition default_config : audio_config :=
  {| BN_CFG_AUDIO_MAX_COMMANDS := 16 |}.

Definition minimal_config : audio_config :=
  {| BN_CFG_AUDIO_MAX_COMMANDS := 3 |}.

Definition one : fixed := fixed_t.of_int 12 1.
Definition minus_one : fixed := fixed_t.of_int 12 (-1).
Definition half : fixed := fixed_t.create 2048.

Definition song : music_item.t := music_item.mk 7.
Definition tune : dmg_music_item.t := dmg_music_item.mk 134217728.

(** Music playing, nothing queued. *)
Definition playing_state : data.static_data :=
  data.set_music_playing true (data.set_music_volume one data.initial).

(** DMG music active, nothing else. *)
Definition dmg_state : data.static_data :=
  data.set_dmg_music_data (dmg_music_item.data_ptr tune) data.initial.

(** Music playing and paused. *)
Definition paused_state : data.static_data :=
  data.set_music_paused true playing_state.

(** A queue filled to a capacity of three. *)
Definition full_state : data.static_data :=
  data.set_commands
    [command.sound_stop_all; command.sound_stop_all; command.sound_stop_all]
    data.initial.

(** Music playing, DMG music active, three commands waiting. *)
Definition busy_state : data.static_data :=
  data.set_commands
    [command.music_play song true 1024; command.music_pause;
     command.sound_stop_all]
    (data.set_dmg_music_data (dmg_music_item.data_ptr tune) playing_state).

(** A driver that reports music playing at position 120, pattern 3 row 5. *)
Definition reporting : recorder.t := recorder.mk [] true 120 (3, 5) false.

(** Two commands already queued, out of a capacity of three. *)
Definition nearly_full_state : data.static_data :=
  data.set_commands [command.sound_stop_all; command.sound_stop_all] data.initial.

(** ** The remaining members of fixed_t

    [int64_t] intermediates are 64-bit; [unsigned] is 32-bit.  The right
    shift of a signed value is the arithmetic shift of the target. *)

Definition to_int64_t (z : Z) : Z := wrap_signed 64 z.
Definition to_unsigned (z : Z) : Z := z mod 2 ^ 32.
Definition to_int8_t (z : Z) : Z := wrap_signed 8 z.

Definition in_int (z : Z) : Prop := INT_MIN <= z <= INT_MAX.

Definition BTN_CONSTEXPR_ASSERT (condition : bool) (message : string)
    : outcome unit :=
  if condition then Ok tt else Fatal message.

Module fixed_members.

Import fixed_t.

(** [fixed_t(int integer, int fraction)] *)
Definition of_int_fraction (Precision : Z) (integer fraction : Z)
    : outcome (t Precision) :=
  let value := to_int (to_int (integer * scale Precision) + fraction) in
  BTN_CONSTEXPR_ASSERT (fraction >=? 0) "Fraction is negative" ;;;
  Ok (create value).

Definition value {Precision : Z} (a : t Precision) : Z := data a.

Definition integer {Precision : Z} (a : t Precision) : Z :=
  Z.quot (data a) (scale Precision).

Definition unsigned_integer {Precision : Z} (a : t Precision) : Z :=
  to_unsigned (Z.shiftr (data a) Precision).

Definition fraction {Precision : Z} (a : t Precision) : Z :=
  Z.land (data a) (scale Precision - 1).

(** [multiplication(fixed_t other)] *)
Definition multiplication {Precision : Z} (a other : t Precision)
    : t Precision :=
  create (to_int (Z.shiftr (to_int64_t (data a * data other)) Precision)).

(** [multiplication(int integer)] *)
Definition multiplication_int {Precision : Z} (a : t Precision) (integer : Z)
    : t Precision :=
  create (to_int (data a * integer)).


Definition unsafe_multiplication_int {Precision : Z} (a : t Precision)
    (integer : Z) : t Precision :=
  multiplication_int a integer.

(** [division(fixed_t other)] *)
Definition division {Precision : Z} (a other : t Precision)
    : outcome (t Precision) :=
  BTN_CONSTEXPR_ASSERT (negb (data other =? 0)) "Other's internal value is zero" ;;;
  Ok (create (to_int (Z.quot (to_int64_t (data a * scale Precision))
                        (data other)))).

(** [division(int integer)] *)
Definition division_int {Precision : Z} (a : t Precision) (integer : Z)
    : outcome (t Precision) :=
  BTN_CONSTEXPR_ASSERT (negb (integer =? 0)) "Integer is zero" ;;;
  Ok (create (to_int (Z.quot (data a) integer))).

Definition unsafe_division {Precision : Z} (a other : t Precision)
    : outcome (t Precision) :=
  BTN_CONSTEXPR_ASSERT (negb (data other =? 0)) "Other's internal value is zero" ;;;
  Ok (create (to_int (Z.quot (to_int (data a * scale Precision))
                        (data other)))).

Definition unsafe_division_int {Precision : Z} (a : t Precision) (integer : Z)
    : outcome (t Precision) :=
  BTN_CONSTEXPR_ASSERT (negb (integer =? 0)) "Integer is zero" ;;;
  division_int a integer.

(** [operator-()] and [operator-(fixed_t a, fixed_t b)] *)
Definition neg {Precision : Z} (a : t Precision) : t Precision :=
  create (to_int (- data a)).

Definition sub {Precision : Z} (a b : t Precision) : t Precision :=
  create (to_int (data a - data b)).

(** The comparison operators compare the raw values. *)
Definition eqb {Precision : Z} (a b : t Precision) : bool := data a =? data b.
Definition ltb {Precision : Z} (a b : t Precision) : bool := data a <? data b.
Definition leb {Precision : Z} (a b : t Precision) : bool := data a <=? data b.

End fixed_members.

(** ** bg_tiles_ptr: the handle and its ownership

    [_destroy] is defined elsewhere; it is a parameter acting on the state
    [W] of the tile manager. *)

Module bg_tiles_ptr.

Record t : Type := mk { _handle : Z }.

(** [explicit bg_tiles_ptr(int handle)] *)
Definition bg_tiles_ptr (handle : Z) : t := mk (to_int8_t handle).

(** [bg_tiles_ptr(bg_tiles_ptr&& other)]: the new object, and [other] as the
    constructor leaves it. *)
Definition move_construct (other : t) : t * t :=
  (bg_tiles_ptr (_handle other), mk (-1)).

(** [operator=(bg_tiles_ptr&& other)]: [this] and [other] afterwards. *)
Definition move_assign (this other : t) : t * t :=
  (mk (_handle other), mk (_handle this)).

(** [~bg_tiles_ptr()] *)
Definition destructor {W : Type} (_destroy : Z -> W -> W) (p : t) (w : W) : W :=
  if _handle p >=? 0 then _destroy (_handle p) w else w.

Definition eqb (a b : t) : bool := _handle a =? _handle b.
Definition neqb (a b : t) : bool := negb (eqb a b).

End bg_tiles_ptr.

(** ** Object messages: the graphics index of an experience amount *)

Module object_message.

Definition wait_frames : Z := 180.
Definition move_y : Z := Z.quot (- wait_frames) 4.

(** The [switch] of [_graphics_index]; its [default:] is [BTN_ERROR], whose
    message continues with the experience amount. *)
Definition _graphics_index (experience : Z) : outcome Z :=
  if experience =? 1 then Ok 4
  else if experience =? 2 then Ok 6
  else if experience =? 3 then Ok 8
  else if experience =? 4 then Ok 10
  else if experience =? 5 then Ok 12
  else if experience =? 10 then Ok 14
  else if experience =? 15 then Ok 16
  else if experience =? 20 then Ok 18
  else if experience =? 25 then Ok 20
  else if experience =? 30 then Ok 22
  else if experience =? 35 then Ok 24
  else if experience =? 40 then Ok 26
  else if experience =? 45 then Ok 28
  else if experience =? 50 then Ok 30
  else if experience =? 60 then Ok 32
  else if experience =? 70 then Ok 34
  else if experience =? 75 then Ok 36
  else if experience =? 80 then Ok 38
  else if experience =? 90 then Ok 40
  else if experience =? 100 then Ok 42
  else if experience =? 105 then Ok 44
  else if experience =? 120 then Ok 46
  else if experience =? 125 then Ok 48
  else if experience =? 140 then Ok 50
  else if experience =? 150 then Ok 52
  else if experience =? 160 then Ok 54
  else if experience =? 175 then Ok 56
  else if experience =? 200 then Ok 58
  else Fatal "Invalid experience: ".

(** The experience amounts the switch has a case for. *)
Definition experiences : list Z :=
  [1; 2; 3; 4; 5; 10; 15; 20; 25; 30; 35; 40; 45; 50; 60; 70; 75; 80; 90;
   100; 105; 120; 125; 140; 150; 160; 175; 200].

End object_message.

(** ** Groups of audio operations *)

(** The operations that write a music field of the shadow state. *)
Definition writes_music (o : operation) : bool :=
  match o with
  | op_play_music _ _ _ | op_stop_music | op_pause_music | op_resume_music
  | op_set_music_position _ | op_set_music_volume _ | op_update | op_stop => true
  | _ => false
  end.

(** The operations that write a DMG music field of the shadow state. *)
Definition writes_dmg_music (o : operation) : bool :=
  match o with
  | op_play_dmg_music _ _ _ | op_stop_dmg_music | op_pause_dmg_music
  | op_resume_dmg_music | op_set_dmg_music_position _
  | op_set_dmg_music_left_volume _ | op_set_dmg_music_right_volume _
  | op_set_dmg_music_volume _ _ | op_update => true
  | _ => false
  end.

(** The operations that empty the queue. *)
Definition clears_queue (o : operation) : bool :=
  match o with
  | op_update | op_stop => true
  | _ => false
  end.

(** * Properties *)

(** ** Fixed-point conversions *)

Lemma min_spec (a b : Z) : min a b = Z.min a b.
Proof. unfold min. destruct (Z.ltb_spec b a); lia. Qed.

Lemma convert_down (bits : Z) (v : fixed) :
  0 < bits < 12 ->
  fixed_t.data (fixed_t.convert bits v) = rescaled bits v.
Proof.
  intros Hb. unfold fixed_t.convert, rescaled, fixed_t.scale.
  cbn [fixed_t.data].
  destruct (Z.ltb_spec bits 12) as [_ | ?]; [ | lia ].
  rewrite !Z.shiftl_1_l.
  f_equal.
  assert (Hsplit : 2 ^ 12 = 2 ^ (12 - bits) * 2 ^ bits).
  { rewrite <- Z.pow_add_r by lia. f_equal. lia. }
  rewrite Hsplit.
  apply Z.quot_mul, Z.pow_nonzero; lia.
Qed.

Lemma rescaled_close (bits : Z) (v : fixed) :
  0 < bits < 12 ->
  Z.abs (fixed_t.data v - 2 ^ (12 - bits) * rescaled bits v) < 2 ^ (12 - bits).
Proof.
  intros Hb. unfold rescaled.
  assert (Hp : 0 < 2 ^ (12 - bits)) by (apply Z.pow_pos_nonneg; lia).
  set (k := 2 ^ (12 - bits)) in *.
  pose proof (Z.quot_rem' (fixed_t.data v) k) as Hqr.
  replace (fixed_t.data v - k * Z.quot (fixed_t.data v) k)
    with (Z.rem (fixed_t.data v) k) by lia.
  pose proof (Z.rem_bound_abs (fixed_t.data v) k) as Hr.
  lia.
Qed.

Lemma to_int_small (z : Z) : INT_MIN <= z <= INT_MAX -> to_int z = z.
Proof.
  unfold to_int, wrap_signed, INT_MIN, INT_MAX. intros Hz.
  rewrite Z.mod_small; lia.
Qed.

Lemma panning_shift (p : fixed) :
  -4096 <= fixed_t.data p <= 4096 ->
  fixed_t.data (fixed_t.add p (fixed_t.of_int 12 1)) = fixed_t.data p + 4096.
Proof.
  intros Hp. unfold fixed_t.add, fixed_t.of_int, fixed_t.scale. simpl.
  change (to_int (1 * Z.shiftl 1 12)) with 4096.
  apply to_int_small. unfold INT_MIN, INT_MAX. lia.
Qed.

(** C7: the hardware-scale conversions are functions of their argument
    alone; sound volume is the 8-fraction-bit value clamped to at most 255,
    sound speed the 10-fraction-bit value clamped to at most 65535, DMG music
    volume the 3-fraction-bit value (one per channel), and panning [p] in
    [-1, 1] the 7-fraction-bit value of [p + 1] clamped to at most 255, so
    that panning -1 gives 0 and panning 1 gives 255. *)
Theorem hw_scale_conversions (v l r p : fixed) :
  -4096 <= fixed_t.data p <= 4096 ->
  _hw_sound_volume v = Z.min (rescaled 8 v) 255 /\
  _hw_sound_volume v <= 255 /\
  _hw_sound_speed v = Z.min (rescaled 10 v) 65535 /\
  _hw_sound_speed v <= 65535 /\
  _hw_dmg_music_volume v = rescaled 3 v /\
  command._volume (command.dmg_music_set_volume
                     (_hw_dmg_music_volume l) (_hw_dmg_music_volume r))
    = to_uint16_t (rescaled 3 l) /\
  command._speed (command.dmg_music_set_volume
                    (_hw_dmg_music_volume l) (_hw_dmg_music_volume r))
    = to_uint16_t (rescaled 3 r) /\
  _hw_sound_panning p
    = Z.min (rescaled 7 (fixed_t.create (fixed_t.data p + 4096))) 255 /\
  0 <= _hw_sound_panning p <= 255 /\
  _hw_sound_panning minus_one = 0 /\
  _hw_sound_panning one = 255.
Proof.
  intros Hp.
  assert (Hpan : _hw_sound_panning p
                 = Z.min (rescaled 7 (fixed_t.create (fixed_t.data p + 4096))) 255).
  { unfold _hw_sound_panning. rewrite min_spec, convert_down by lia.
    unfold rescaled. rewrite panning_shift by exact Hp. reflexivity. }
  unfold _hw_sound_volume, _hw_sound_speed, _hw_dmg_music_volume.
  rewrite !min_spec, !convert_down by lia.
  assert (Hlow : 0 <= rescaled 7 (fixed_t.create (fixed_t.data p + 4096))).
  { unfold rescaled. cbn [fixed_t.data]. apply Z.quot_pos; lia. }
  repeat match goal with |- _ /\ _ => split end;
    try reflexivity; try exact Hpan; lia.
Qed.

Lemma hw_scale_conversions_witness :
  -4096 <= fixed_t.data one <= 4096 /\
  _hw_sound_volume half = Z.min (rescaled 8 half) 255 /\
  _hw_sound_panning one = 255.
Proof.
  split; [ vm_compute; split; discriminate | ].
  pose proof (hw_scale_conversions half half one one) as Hc.
  assert (Hr : -4096 <= fixed_t.data one <= 4096)
    by (vm_compute; split; discriminate).
  specialize (Hc Hr).
  destruct Hc as (Hvol & _ & _ & _ & _ & _ & _ & _ & _ & _ & Hone).
  split; assumption.
Defined.

(** ** Reasoning about operations that may assert *)

Lemma bind_Ok {A B : Type} (m : outcome A) (k : A -> outcome B) (b : B) :
  bind m k = Ok b -> exists a, m = Ok a /\ k a = Ok b.
Proof. destruct m as [a | msg]; simpl; [ eauto | discriminate ]. Qed.

(** Open every assertion of an operation and decide its guards. *)
Ltac open_asserts :=
  unfold BN_ASSERT, bind in *;
  repeat match goal with
  | H : context [if ?b then _ else _] |- _ =>
      let E := fresh "E" in destruct b eqn:E; try discriminate H
  | |- context [if ?b then _ else _] =>
      let E := fresh "E" in destruct b eqn:E
  end.

Ltac unfold_operations :=
  unfold stop, play_music, stop_music, pause_music, resume_music,
    set_music_position, set_music_volume, music_position, music_volume,
    play_dmg_music, stop_dmg_music, pause_dmg_music, resume_dmg_music,
    set_dmg_music_position, set_dmg_music_left_volume,
    set_dmg_music_right_volume, set_dmg_music_volume, dmg_music_position,
    dmg_music_left_volume, dmg_music_right_volume, play_sound, play_sound_ex,
    stop_all_sounds in *.

Section Properties.

Context {cfg : audio_config}.

Lemma operation_eq_update (o : operation) : o = op_update \/ o <> op_update.
Proof. destruct o; (left; reflexivity) || (right; discriminate). Qed.

Lemma push_back_length (c : command.t) (d : data.static_data) :
  List.length (data.commands (push_back c d))
  = S (List.length (data.commands d)).
Proof. unfold push_back. simpl. rewrite length_app. simpl. lia. Qed.

Lemma full_nil : max_commands_valid -> full [] = false.
Proof.
  unfold max_commands_valid, full. intros Hcap.
  apply Nat.eqb_neq. simpl. lia.
Qed.

Lemma full_one (c : command.t) : max_commands_valid -> full [c] = false.
Proof.
  unfold max_commands_valid, full. intros Hcap.
  apply Nat.eqb_neq. simpl. lia.
Qed.

(** ** play_music and the music queries *)

(** C3: with room in the queue, [play_music item v loop] succeeds and, with
    no [update] in between, [music_playing] is true, [music_volume] is
    exactly [v], [music_position] is 0 and [music_paused] is false. *)
Theorem play_music_synchronous (item : music_item.t) (v : fixed) (loop : bool)
    (d : data.static_data) :
  full (data.commands d) = false ->
  exists d',
    play_music item v loop d = Ok d' /\
    music_playing d' = true /\
    music_volume d' = Ok v /\
    music_position d' = Ok 0 /\
    music_paused d' = false.
Proof.
  intros Hroom. unfold play_music. rewrite Hroom. simpl.
  eexists. split; [ reflexivity | ].
  repeat split.
Qed.

(** C9: with music playing and room in the queue, [set_music_volume v]
    followed by [music_volume] gives back exactly [v]; what is rescaled to
    10 fraction bits is the volume stored in the queued command. *)
Theorem set_music_volume_round_trip (v : fixed) (d : data.static_data) :
  music_playing d = true ->
  full (data.commands d) = false ->
  exists d',
    set_music_volume v d = Ok d' /\
    music_volume d' = Ok v /\
    data.commands d'
      = data.commands d ++ [command.music_set_volume (rescaled 10 v)].
Proof.
  unfold music_playing. intros Hplaying Hroom.
  unfold set_music_volume. rewrite Hplaying, Hroom. simpl.
  eexists. split; [ reflexivity | ].
  split.
  - unfold music_volume. simpl. rewrite Hplaying. reflexivity.
  - unfold _hw_music_volume. rewrite convert_down by lia. reflexivity.
Qed.

(** ** Preconditions of the music operations *)

Lemma pause_music_twice (d d' : data.static_data) :
  pause_music d = Ok d' -> pause_music d' = Fatal "Music is already paused".
Proof.
  intros Hpause. unfold pause_music in Hpause. open_asserts.
  injection Hpause as <-.
  unfold pause_music. simpl. rewrite E. reflexivity.
Qed.

Lemma pause_music_Ok (d : data.static_data) :
  data.music_playing d = true ->
  data.music_paused d = false ->
  full (data.commands d) = false ->
  pause_music d = Ok (data.set_music_paused true (push_back command.music_pause d)).
Proof.
  intros Hplaying Hrunning Hroom. unfold pause_music.
  rewrite Hplaying, Hrunning, Hroom. reflexivity.
Qed.

(** C4, with the capacity condition spelled out: the six music operations
    that need music playing are fatal when it is not; [pause_music] is fatal
    when music is already paused and [resume_music] when it is not paused;
    [pause_music] right after [play_music] succeeds when the queue has room
    for both commands, and a second consecutive [pause_music] is then
    fatal. *)
Theorem music_preconditions (item : music_item.t) (v : fixed) (loop : bool)
    (position : Z) (d : data.static_data) :
  (music_playing d = false ->
     stop_music d = Fatal "There's no music playing" /\
     pause_music d = Fatal "There's no music playing" /\
     set_music_volume v d = Fatal "There's no music playing" /\
     set_music_position position d = Fatal "There's no music playing" /\
     music_volume d = Fatal "There's no music playing" /\
     music_position d = Fatal "There's no music playing") /\
  (music_paused d = true -> is_fatal (pause_music d) = true) /\
  (music_playing d = true -> music_paused d = true ->
     pause_music d = Fatal "Music is already paused") /\
  (music_paused d = false -> resume_music d = Fatal "Music is not paused") /\
  ((List.length (data.commands d) + 2 <= BN_CFG_AUDIO_MAX_COMMANDS)%nat ->
     exists d1 d2,
       play_music item v loop d = Ok d1 /\
       pause_music d1 = Ok d2 /\
       pause_music d2 = Fatal "Music is already paused").
Proof.
  unfold music_playing, music_paused.
  split; [ | split; [ | split; [ | split ] ] ].
  - intros Hstopped. unfold_operations. rewrite Hstopped. simpl.
    repeat split.
  - intros Hpaused. unfold pause_music. rewrite Hpaused.
    destruct (data.music_playing d); reflexivity.
  - intros Hplaying Hpaused. unfold pause_music.
    rewrite Hplaying, Hpaused. reflexivity.
  - intros Hrunning. unfold resume_music. rewrite Hrunning. reflexivity.
  - intros Hroom.
    assert (Hfull : full (data.commands d) = false).
    { unfold full. apply Nat.eqb_neq. lia. }
    assert (Hfull' : forall c, full (data.commands d ++ [c]) = false).
    { intros c. unfold full. apply Nat.eqb_neq. rewrite length_app. simpl. lia. }
    unfold play_music. rewrite Hfull. cbn [BN_ASSERT negb bind].
    eexists. eexists. split; [ reflexivity | ].
    split.
    + apply pause_music_Ok; [ reflexivity | reflexivity | apply Hfull' ].
    + eapply pause_music_twice.
      apply pause_music_Ok; [ reflexivity | reflexivity | apply Hfull' ].
Qed.

(** ** stop *)

Lemma stop_stopped (d : data.static_data) :
  max_commands_valid -> stop d = Ok (stopped d).
Proof.
  intros Hcap. unfold stop, stopped. simpl.
  destruct (data.music_playing d) eqn:Hplaying.
  - unfold stop_music. simpl. rewrite Hplaying, (full_nil Hcap). simpl.
    unfold stop_all_sounds. simpl.
    rewrite (full_one command.music_stop Hcap). reflexivity.
  - simpl. unfold stop_all_sounds. simpl. rewrite (full_nil Hcap). reflexivity.
Qed.

(** C1, for music and the queue: with the capacity the static assertion
    demands, [stop] succeeds from every shadow state; afterwards music is
    not playing (nor paused, when it was paused only while playing), and the
    queue holds exactly the trailing stop-all command, preceded by exactly
    one music-stop command when music had been playing, and nothing else. *)
Theorem stop_leaves_music_stopped (d : data.static_data) :
  max_commands_valid ->
  exists d',
    stop d = Ok d' /\
    music_playing d' = false /\
    (paused_implies_playing d -> music_paused d' = false) /\
    data.commands d'
      = (if music_playing d then [command.music_stop] else [])
        ++ [command.sound_stop_all] /\
    count_type command.MUSIC_STOP (data.commands d')
      = (if music_playing d then 1%nat else 0%nat) /\
    count_type command.SOUND_STOP_ALL (data.commands d') = 1%nat.
Proof.
  intros Hcap. exists (stopped d).
  split; [ apply stop_stopped, Hcap | ].
  unfold stopped, music_playing, music_paused, paused_implies_playing.
  destruct d as [cs mv dp lv rv id pos dd playing paused dpaused]. simpl.
  destruct playing, paused; simpl; repeat split; intros Hinv;
    try reflexivity; symmetry; apply Hinv; reflexivity.
Qed.

(** C10: with a capacity greater than 2, [stop] never fails from any shadow
    state: the queue is empty when [stop_music] checks it and holds at most
    one command when [stop_all_sounds] checks it, so neither check can find
    it full, and at most two commands are queued at return. *)
Theorem stop_never_fatal (d : data.static_data) :
  max_commands_valid ->
  succeeds (stop d) = true /\
  full [] = false /\
  full [command.music_stop] = false /\
  (forall d', stop d = Ok d' -> (List.length (data.commands d') <= 2)%nat) /\
  stop d <> Fatal "No more audio commands available".
Proof.
  intros Hcap. rewrite (stop_stopped d Hcap). simpl.
  split; [ reflexivity | ].
  split; [ apply full_nil, Hcap | ].
  split; [ apply full_one, Hcap | ].
  split; [ | discriminate ].
  intros d' Hd'. injection Hd' as <-.
  unfold stopped. destruct (data.music_playing d); simpl; lia.
Qed.

(** ** Invariants over sequences of operations *)

Context {H : Type} {drv : hw.audio.driver H}.

(** Split a successful step into its cases, with every assertion of the
    operation opened and decided. *)
Ltac step_cases Hstep :=
  match type of Hstep with
  | step ?o (?d, ?h) = Ok ?w' =>
      destruct o; cbn [step] in Hstep;
      unfold on_data, on_query, init, enable, disable, set_update_on_vblank,
        disable_vblank_handler, commit in Hstep;
      cbn [fst snd] in Hstep;
      unfold_operations;
      unfold BN_ASSERT, bind in Hstep;
      repeat match type of Hstep with
      | context [if ?b then _ else _] =>
          let E := fresh "E" in destruct b eqn:E; try discriminate Hstep
      end;
      try (injection Hstep as <-)
  end.

Ltac not_full :=
  unfold full in *;
  repeat match goal with
  | E : negb _ = true |- _ => apply negb_true_iff in E
  | E : negb _ = false |- _ => apply negb_false_iff in E
  | E : (_ =? _)%nat = false |- _ => apply Nat.eqb_neq in E
  | E : (_ =? _)%nat = true |- _ => apply Nat.eqb_eq in E
  end.

Lemma update_commands (d : data.static_data) (h : H) :
  data.commands (fst (update (d, h))) = [].
Proof.
  unfold update.
  destruct (hw.audio.dmg_music_position
              (execute_all (data.commands d) (hw.audio.update h))) as [pattern row].
  cbn [fst].
  repeat match goal with
  | |- context [if ?b then _ else _] => destruct b
  end; reflexivity.
Qed.

Lemma step_within_capacity (o : operation) (w w' : data.static_data * H) :
  queue_within_capacity (fst w) ->
  step o w = Ok w' ->
  queue_within_capacity (fst w').
Proof.
  destruct w as [d h]. cbn [fst]. intros Hinv Hstep.
  destruct (operation_eq_update o) as [-> | Hother].
  - assert (Hw : w' = update (d, h)) by (cbn [step] in Hstep; congruence).
    subst w'. unfold queue_within_capacity.
    rewrite update_commands. simpl. lia.
  - unfold queue_within_capacity in *.
    step_cases Hstep; try congruence; not_full;
      cbn [fst data.commands push_back data.set_commands data.set_music_volume
             data.set_dmg_music_position data.set_dmg_music_left_volume
             data.set_dmg_music_right_volume data.set_music_item_id
             data.set_music_position data.set_dmg_music_data
             data.set_music_playing data.set_music_paused
             data.set_dmg_music_paused] in *;
      rewrite ?length_app; simpl List.length in *; lia.
Qed.

Lemma reachable_within_capacity (w : data.static_data * H) :
  reachable w -> queue_within_capacity (fst w).
Proof.
  induction 1 as [h | o w w' _ IH Hstep].
  - unfold queue_within_capacity. simpl. lia.
  - eapply step_within_capacity; eassumption.
Qed.

Lemma run_reachable (ops : list operation) :
  forall w w', reachable w -> run ops w = Ok w' -> reachable w'.
Proof.
  induction ops as [| o rest IH]; intros w w' Hreach Hrun; simpl in Hrun.
  - injection Hrun as <-. exact Hreach.
  - apply bind_Ok in Hrun. destruct Hrun as (w1 & Hstep & Hrest).
    apply (IH w1 w'); [ | exact Hrest ].
    eapply reachable_step; eassumption.
Qed.

Lemma run_app (ops ops' : list operation) (w : data.static_data * H) :
  run (ops ++ ops') w = (w1 <- run ops w ;; run ops' w1).
Proof.
  revert w. induction ops as [| o rest IH]; intros w; simpl.
  - reflexivity.
  - destruct (step o w) as [w1 | msg]; simpl; [ apply IH | reflexivity ].
Qed.

Lemma enqueue_needs_room (o : operation) (w w' : data.static_data * H) :
  enqueues o = true ->
  step o w = Ok w' ->
  full (data.commands (fst w)) = false /\
  List.length (data.commands (fst w'))
  = S (List.length (data.commands (fst w))).
Proof.
  destruct w as [d h]. cbn [fst]. intros Henq Hstep.
  step_cases Hstep; try discriminate Henq;
    repeat match goal with
    | E : negb _ = true |- _ => apply negb_true_iff in E
    end;
    (split; [ assumption | ]);
    cbn [fst data.commands push_back data.set_commands data.set_music_volume
           data.set_dmg_music_position data.set_dmg_music_left_volume
           data.set_dmg_music_right_volume data.set_music_item_id
           data.set_music_position data.set_dmg_music_data
           data.set_music_playing data.set_music_paused
           data.set_dmg_music_paused];
    rewrite length_app; simpl; lia.
Qed.

(** C5: along every sequence of public operations that meets their
    preconditions the queue stays within its capacity (so also whenever
    [update] is invoked), and an operation that pushes a command is fatal
    when the queue is full: it succeeds only from a queue that is not full,
    and then adds exactly one command. *)
Theorem queue_never_exceeds_capacity :
  (forall ops h w,
     run ops (data.initial, h) = Ok w -> queue_within_capacity (fst w)) /\
  (forall ops h w',
     run (ops ++ [op_update]) (data.initial, h) = Ok w' ->
     exists w,
       run ops (data.initial, h) = Ok w /\
       queue_within_capacity (fst w) /\
       w' = update w) /\
  (forall o w,
     enqueues o = true -> full (data.commands (fst w)) = true ->
     is_fatal (step o w) = true) /\
  (forall o w w',
     enqueues o = true -> step o w = Ok w' ->
     full (data.commands (fst w)) = false /\
     List.length (data.commands (fst w'))
     = S (List.length (data.commands (fst w)))).
Proof.
  assert (Hrun : forall ops h w,
            run ops (data.initial, h) = Ok w -> queue_within_capacity (fst w)).
  { intros ops h w Hok. apply reachable_within_capacity.
    eapply run_reachable; [ apply reachable_start | exact Hok ]. }
  split; [ exact Hrun | ].
  split.
  { intros ops h w' Hok. rewrite run_app in Hok.
    apply bind_Ok in Hok. destruct Hok as (w & Hops & Hupdate).
    exists w. split; [ exact Hops | ].
    split; [ eapply Hrun; exact Hops | ].
    simpl in Hupdate. congruence. }
  split; [ | intros o w w'; apply enqueue_needs_room ].
  intros o w Henq Hfull. unfold is_fatal.
  destruct (step o w) as [w' | msg] eqn:Hstep; [ | reflexivity ].
  destruct (enqueue_needs_room o w w' Henq Hstep) as [Hroom _].
  congruence.
Qed.

(** ** Paused implies active *)

Lemma non_null_true (p : Z) : non_null p = true -> p <> nullptr.
Proof.
  unfold non_null. intros Hp. apply negb_true_iff in Hp.
  apply Z.eqb_neq. exact Hp.
Qed.

Lemma update_flags (d : data.static_data) (h : H) :
  let d' := fst (update (d, h)) in
  data.music_playing d' = data.music_playing d /\
  data.music_paused d' = data.music_paused d /\
  data.dmg_music_paused d' = data.dmg_music_paused d /\
  data.dmg_music_data d' = data.dmg_music_data d.
Proof.
  unfold update.
  destruct (hw.audio.dmg_music_position
              (execute_all (data.commands d) (hw.audio.update h))) as [pattern row].
  cbn [fst].
  repeat match goal with
  | |- context [if ?b then _ else _] => destruct b
  end; repeat split.
Qed.

Lemma step_preserves_flags (o : operation) (w w' : data.static_data * H) :
  paused_implies_playing (fst w) ->
  dmg_paused_implies_handle (fst w) ->
  step o w = Ok w' ->
  paused_implies_playing (fst w') /\ dmg_paused_implies_handle (fst w').
Proof.
  destruct w as [d h]. cbn [fst]. intros Hmusic Hdmg Hstep.
  destruct (operation_eq_update o) as [-> | Hother].
  - assert (Hw : w' = update (d, h)) by (cbn [step] in Hstep; congruence).
    subst w'. unfold paused_implies_playing, dmg_paused_implies_handle in *.
    destruct (update_flags d h) as (-> & -> & -> & ->). auto.
  - unfold paused_implies_playing, dmg_paused_implies_handle in *.
    step_cases Hstep; try congruence;
      cbn [fst data.music_playing data.music_paused data.dmg_music_paused
             data.dmg_music_data push_back data.set_commands
             data.set_music_volume data.set_dmg_music_position
             data.set_dmg_music_left_volume data.set_dmg_music_right_volume
             data.set_music_item_id data.set_music_position
             data.set_dmg_music_data data.set_music_playing
             data.set_music_paused data.set_dmg_music_paused] in *;
      (split; [ | ]); intros Hflag;
      try discriminate Hflag; try reflexivity; try assumption;
      try (apply non_null_true; assumption);
      try (apply Hmusic; assumption); try (apply Hdmg; assumption).
Qed.

(** C8: in every state reached from process start by operations that meet
    their preconditions (update, commit and stop among them), paused music
    is playing music and paused DMG music has its data handle; and every
    operation carries both implications from the state it starts in to the
    state it ends in. *)
Theorem paused_implies_active :
  (forall w,
     reachable w ->
     paused_implies_playing (fst w) /\ dmg_paused_implies_handle (fst w)) /\
  (forall o w w',
     paused_implies_playing (fst w) ->
     dmg_paused_implies_handle (fst w) ->
     step o w = Ok w' ->
     paused_implies_playing (fst w') /\ dmg_paused_implies_handle (fst w')).
Proof.
  split; [ | exact step_preserves_flags ].
  induction 1 as [h | o w w' _ [IHm IHd] Hstep].
  - split; intros Hflag; discriminate Hflag.
  - eapply step_preserves_flags; eassumption.
Qed.

(** ** The frame pump *)

Lemma update_hardware (d : data.static_data) (h : H) :
  snd (update (d, h)) = execute_all (data.commands d) (hw.audio.update h).
Proof.
  unfold update.
  destruct (hw.audio.dmg_music_position
              (execute_all (data.commands d) (hw.audio.update h))) as [pattern row].
  reflexivity.
Qed.

(** C6: after the queue is drained, [update] replaces [music_position] by
    the position the driver reports exactly when the shadow state has music
    playing and the driver reports music playing; with DMG music active it
    replaces [dmg_music_position] by the reported pattern and row exactly
    when the reported pattern is not negative, and keeps the previous value
    when it is negative. *)
Theorem update_resynchronises (d : data.static_data) (h : H) :
  let h' := execute_all (data.commands d) (hw.audio.update h) in
  let d' := fst (update (d, h)) in
  let pattern := fst (hw.audio.dmg_music_position h') in
  let row := snd (hw.audio.dmg_music_position h') in
  (data.music_playing d = true -> hw.audio.music_playing h' = true ->
     data.music_position d' = hw.audio.music_position h') /\
  (data.music_playing d = false \/ hw.audio.music_playing h' = false ->
     data.music_position d' = data.music_position d) /\
  (dmg_music_playing d = true -> 0 <= pattern ->
     data.dmg_music_position d' = dmg_music_position.mk pattern row) /\
  (dmg_music_playing d = true -> pattern < 0 ->
     data.dmg_music_position d' = data.dmg_music_position d) /\
  (dmg_music_playing d = false ->
     data.dmg_music_position d' = data.dmg_music_position d).
Proof.
  unfold update, dmg_music_playing.
  destruct (hw.audio.dmg_music_position
              (execute_all (data.commands d) (hw.audio.update h)))
    as [pattern row].
  cbn [fst snd].
  set (h' := execute_all (data.commands d) (hw.audio.update h)).
  clearbody h'.
  destruct d as [cs mv dp lv rv id pos dd playing paused dpaused].
  destruct playing;
    destruct (hw.audio.music_playing h') eqn:Hhw;
    destruct (non_null dd) eqn:Hdmg;
    destruct (Z.geb_spec pattern 0) as [Hvalid | Hinvalid];
    simpl; rewrite ?Hdmg; simpl;
    repeat split; intros; try reflexivity; try congruence; try lia;
    match goal with
    | Hor : _ \/ _ |- _ => destruct Hor; congruence
    end.
Qed.

End Properties.

(** ** Flushing to the recording driver *)

Lemma recorder_execute (c : command.t) (r : recorder.t) :
  command.execute c r = recorder.record (recorder.call_of c) r.
Proof.
  unfold command.execute, recorder.call_of.
  destruct (command._type c); reflexivity.
Qed.

Lemma recorder_execute_all (cs : list command.t) :
  forall r : recorder.t,
    recorder.calls (execute_all cs r)
    = recorder.calls r ++ map recorder.call_of cs.
Proof.
  induction cs as [| c rest IH]; intros r; simpl.
  - rewrite app_nil_r. reflexivity.
  - rewrite IH, recorder_execute. simpl.
    rewrite <- app_assoc. reflexivity.
Qed.

(** C2: [update] runs the driver's own update, then executes every queued
    command once, front to back, and leaves the queue empty whatever the
    commands are; on the recording driver the primitives invoked are exactly
    those of the queued commands, in insertion order. *)
Theorem update_drains_in_order {H : Type} {drv : hw.audio.driver H}
    (d : data.static_data) (h : H) (r : recorder.t) :
  snd (update (d, h)) = execute_all (data.commands d) (hw.audio.update h) /\
  data.commands (fst (update (d, h))) = [] /\
  (forall c1 c2 c3 h0,
     execute_all [c1; c2; c3] h0
     = command.execute c3 (command.execute c2 (command.execute c1 h0))) /\
  recorder.calls (snd (update (d, r)))
  = recorder.calls r
    ++ recorder.Update :: map recorder.call_of (data.commands d) /\
  data.commands (fst (update (d, r))) = [].
Proof.
  split; [ apply update_hardware | ].
  split; [ apply update_commands | ].
  split; [ reflexivity | ].
  split; [ | apply update_commands ].
  rewrite update_hardware, recorder_execute_all. simpl.
  rewrite <- app_assoc. reflexivity.
Qed.

(** ** The properties at concrete states *)

Lemma stop_leaves_music_stopped_witness :
  @max_commands_valid default_config /\
  paused_implies_playing paused_state /\
  exists d',
    @stop default_config paused_state = Ok d' /\
    music_playing d' = false /\
    music_paused d' = false /\
    data.commands d' = [command.music_stop; command.sound_stop_all].
Proof.
  split; [ unfold max_commands_valid; simpl; lia | ].
  split; [ intros _; reflexivity | ].
  destruct (@stop_leaves_music_stopped default_config paused_state)
    as (d' & Hstop & Hplaying & Hpaused & Hqueue & _).
  - unfold max_commands_valid. simpl. lia.
  - exists d'. split; [ exact Hstop | ].
    split; [ exact Hplaying | ].
    split; [ apply Hpaused; intros _; reflexivity | exact Hqueue ].
Defined.

(** [stop] stops music only: DMG music that was active is still active
    afterwards, and with music playing the queue ends with two commands. *)
Lemma stop_keeps_dmg_music :
  @stop default_config dmg_state = Ok (stopped dmg_state) /\
  dmg_music_playing (stopped dmg_state) = true /\
  ~ (music_playing (stopped dmg_state) = false /\
     dmg_music_playing (stopped dmg_state) = false) /\
  @stop default_config playing_state = Ok (stopped playing_state) /\
  data.commands (stopped playing_state)
  = [command.music_stop; command.sound_stop_all] /\
  data.commands (stopped playing_state) <> [command.sound_stop_all].
Proof.
  split; [ reflexivity | ].
  split; [ reflexivity | ].
  split; [ intros [_ Hdmg]; discriminate Hdmg | ].
  split; [ reflexivity | ].
  split; [ reflexivity | discriminate ].
Qed.

Lemma play_music_synchronous_witness :
  @full default_config (data.commands data.initial) = false /\
  exists d',
    @play_music default_config song half true data.initial = Ok d' /\
    music_volume d' = Ok half.
Proof.
  split; [ reflexivity | ].
  destruct (@play_music_synchronous default_config song half true data.initial)
    as (d' & Hplay & _ & Hvolume & _).
  - reflexivity.
  - exists d'. split; assumption.
Defined.

Lemma set_music_volume_round_trip_witness :
  music_playing playing_state = true /\
  @full default_config (data.commands playing_state) = false /\
  exists d',
    @set_music_volume default_config half playing_state = Ok d' /\
    music_volume d' = Ok half.
Proof.
  split; [ reflexivity | ].
  split; [ reflexivity | ].
  destruct (@set_music_volume_round_trip default_config half playing_state)
    as (d' & Hset & Hvolume & _).
  - reflexivity.
  - reflexivity.
  - exists d'. split; assumption.
Defined.

Lemma music_preconditions_witness :
  music_playing data.initial = false /\
  music_paused data.initial = false /\
  (List.length (data.commands data.initial) + 2 <= 16)%nat /\
  music_playing paused_state = true /\
  music_paused paused_state = true /\
  @stop_music default_config data.initial = Fatal "There's no music playing" /\
  @resume_music default_config data.initial = Fatal "Music is not paused" /\
  @pause_music default_config paused_state = Fatal "Music is already paused" /\
  is_fatal (@pause_music default_config paused_state) = true /\
  exists d1 d2,
    @play_music default_config song one true data.initial = Ok d1 /\
    @pause_music default_config d1 = Ok d2 /\
    @pause_music default_config d2 = Fatal "Music is already paused".
Proof.
  pose proof (@music_preconditions default_config song one true 0 data.initial)
    as (Hstopped & _ & _ & Hresume & Hsequence).
  pose proof (@music_preconditions default_config song one true 0 paused_state)
    as (_ & Hfatal & Hpaused & _).
  split; [ reflexivity | ].
  split; [ reflexivity | ].
  split; [ simpl; lia | ].
  split; [ reflexivity | ].
  split; [ reflexivity | ].
  split; [ apply Hstopped; reflexivity | ].
  split; [ apply Hresume; reflexivity | ].
  split; [ apply Hpaused; reflexivity | ].
  split; [ apply Hfatal; reflexivity | ].
  apply Hsequence. simpl. lia.
Defined.

(** [pause_music] right after a successful [play_music] is fatal when
    [play_music] took the last free slot of the queue. *)
Lemma pause_after_play_on_full_queue :
  exists d1,
    @play_music minimal_config song one true nearly_full_state = Ok d1 /\
    music_playing d1 = true /\
    music_paused d1 = false /\
    @pause_music minimal_config d1 = Fatal "No more audio commands available" /\
    succeeds (@pause_music minimal_config d1) = false.
Proof.
  eexists. split; [ reflexivity | ].
  repeat split.
Qed.

Lemma stop_never_fatal_witness :
  @max_commands_valid minimal_config /\
  succeeds (@stop minimal_config full_state) = true /\
  succeeds (@stop minimal_config playing_state) = true.
Proof.
  assert (Hcap : @max_commands_valid minimal_config)
    by (unfold max_commands_valid; simpl; lia).
  split; [ exact Hcap | ].
  split.
  - exact (proj1 (@stop_never_fatal minimal_config full_state Hcap)).
  - exact (proj1 (@stop_never_fatal minimal_config playing_state Hcap)).
Defined.

Lemma queue_never_exceeds_capacity_witness :
  (exists w,
     @run default_config recorder.t recorder.driver
       [op_play_music song one true; op_pause_music; op_update]
       (data.initial, recorder.silent) = Ok w /\
     @queue_within_capacity default_config (fst w)) /\
  enqueues op_stop_all_sounds = true /\
  @full minimal_config (data.commands (fst (full_state, recorder.silent))) = true /\
  is_fatal (@step minimal_config recorder.t recorder.driver
              op_stop_all_sounds (full_state, recorder.silent)) = true.
Proof.
  pose proof (@queue_never_exceeds_capacity default_config recorder.t
                recorder.driver) as (Hrun & _).
  pose proof (@queue_never_exceeds_capacity minimal_config recorder.t
                recorder.driver) as (_ & _ & Hfatal & _).
  split.
  - eexists. split; [ reflexivity | ].
    apply (Hrun [op_play_music song one true; op_pause_music; op_update]
             recorder.silent).
    reflexivity.
  - split; [ reflexivity | ].
    split; [ reflexivity | ].
    apply Hfatal; reflexivity.
Defined.

Lemma update_resynchronises_witness :
  data.music_playing busy_state = true /\
  hw.audio.music_playing
    (execute_all (data.commands busy_state) (hw.audio.update reporting)) = true /\
  dmg_music_playing busy_state = true /\
  data.music_position (fst (update (busy_state, reporting))) = 120 /\
  data.dmg_music_position (fst (update (busy_state, reporting)))
  = dmg_music_position.mk 3 5 /\
  data.dmg_music_position (fst (update (busy_state, recorder.silent)))
  = data.dmg_music_position busy_state /\
  data.music_position (fst (update (busy_state, recorder.silent)))
  = data.music_position busy_state.
Proof.
  pose proof (@update_resynchronises recorder.t recorder.driver busy_state
                reporting) as (Hposition & _ & Hdmg & _).
  pose proof (@update_resynchronises recorder.t recorder.driver busy_state
                recorder.silent) as (_ & Hkeep & _ & Hinvalid & _).
  split; [ reflexivity | ].
  split; [ reflexivity | ].
  split; [ reflexivity | ].
  split; [ apply Hposition; reflexivity | ].
  split; [ apply Hdmg; [ reflexivity | vm_compute; discriminate ] | ].
  split; [ apply Hinvalid; reflexivity | ].
  apply Hkeep. right. reflexivity.
Defined.

Lemma paused_implies_active_witness :
  @reachable default_config recorder.t recorder.driver
    (data.initial, recorder.silent) /\
  paused_implies_playing (fst (data.initial, recorder.silent)) /\
  paused_implies_playing playing_state /\
  dmg_paused_implies_handle playing_state /\
  (exists w',
     @step default_config recorder.t recorder.driver op_pause_music
       (playing_state, recorder.silent) = Ok w' /\
     paused_implies_playing (fst w') /\ dmg_paused_implies_handle (fst w')).
Proof.
  pose proof (@paused_implies_active default_config recorder.t recorder.driver)
    as (Hreach & Hstep).
  assert (Hstart : @reachable default_config recorder.t recorder.driver
                     (data.initial, recorder.silent))
    by apply reachable_start.
  assert (Hmusic : paused_implies_playing playing_state)
    by (intros _; reflexivity).
  assert (Hdmg : dmg_paused_implies_handle playing_state)
    by (intros Hflag; discriminate Hflag).
  split; [ exact Hstart | ].
  split; [ exact (proj1 (Hreach _ Hstart)) | ].
  split; [ exact Hmusic | ].
  split; [ exact Hdmg | ].
  eexists. split; [ reflexivity | ].
  apply (Hstep op_pause_music (playing_state, recorder.silent));
    [ exact Hmusic | exact Hdmg | reflexivity ].
Defined.

(** Three commands queued in a row reach the driver in that order, after
    the driver's own update. *)
Example update_three_commands :
  recorder.calls (snd (update (busy_state, recorder.silent)))
  = [recorder.Update; recorder.PlayMusic 7 1024 true; recorder.PauseMusic;
     recorder.StopAllSounds].
Proof. reflexivity. Qed.

(** With a capacity of 1, which the static assertion rules out, [stop] with
    music playing fails on its second capacity check. *)
Example stop_needs_capacity :
  @stop {| BN_CFG_AUDIO_MAX_COMMANDS := 1 |} playing_state
  = Fatal "No more audio commands available".
Proof. reflexivity. Qed.

(** * Further properties of the audio manager *)

(** As for the invariants above: a successful step split into its cases. *)
Ltac split_step Hstep :=
  match type of Hstep with
  | step ?o (?d, ?h) = Ok ?w' =>
      destruct o; cbn [step] in Hstep;
      unfold on_data, on_query, init, enable, disable, set_update_on_vblank,
        disable_vblank_handler, commit in Hstep;
      cbn [fst snd] in Hstep;
      unfold_operations;
      unfold BN_ASSERT, bind in Hstep;
      repeat match type of Hstep with
      | context [if ?b then _ else _] =>
          let E := fresh "E" in destruct b eqn:E; try discriminate Hstep
      end;
      try (injection Hstep as <-)
  end.

Ltac project_data :=
  cbn [fst snd data.commands data.music_volume data.dmg_music_position
         data.dmg_music_left_volume data.dmg_music_right_volume
         data.music_item_id data.music_position data.dmg_music_data
         data.music_playing data.music_paused data.dmg_music_paused
         push_back data.set_commands data.set_music_volume
         data.set_dmg_music_position data.set_dmg_music_left_volume
         data.set_dmg_music_right_volume data.set_music_item_id
         data.set_music_position data.set_dmg_music_data
         data.set_music_playing data.set_music_paused
         data.set_dmg_music_paused] in *.

Section MoreAudio.

Context {cfg : audio_config}.

Lemma room_for_two (cs : list command.t) (c : command.t) :
  (List.length cs + 2 <= BN_CFG_AUDIO_MAX_COMMANDS)%nat ->
  full cs = false /\ full (cs ++ [c]) = false.
Proof.
  intros Hroom. unfold full. split; apply Nat.eqb_neq.
  - lia.
  - rewrite length_app. simpl. lia.
Qed.

(** X1: with room in the queue [play_dmg_music] succeeds; DMG music then
    counts as playing exactly when the item's data pointer is not null, it
    is not paused, and with a non-null pointer the queries give the zero
    position, both volumes at 1, and the item itself. *)
Theorem play_dmg_music_synchronous (item : dmg_music_item.t) (speed : Z)
    (loop : bool) (d : data.static_data) :
  full (data.commands d) = false ->
  exists d',
    play_dmg_music item speed loop d = Ok d' /\
    dmg_music_playing d' = non_null (dmg_music_item.data_ptr item) /\
    dmg_music_paused d' = false /\
    data.commands d'
      = data.commands d ++ [command.dmg_music_play item loop speed] /\
    (dmg_music_item.data_ptr item <> nullptr ->
       dmg_music_position d' = Ok (dmg_music_position.mk 0 0) /\
       dmg_music_left_volume d' = Ok (fixed_t.create 4096) /\
       dmg_music_right_volume d' = Ok (fixed_t.create 4096) /\
       playing_dmg_music_item d' = Some item).
Proof.
  intros Hroom. unfold play_dmg_music. rewrite Hroom.
  cbn [negb BN_ASSERT bind]. eexists. split; [ reflexivity | ].
  split; [ reflexivity | ].
  split; [ reflexivity | ].
  split; [ reflexivity | ].
  intros Hptr.
  assert (Hnn : non_null (dmg_music_item.data_ptr item) = true).
  { unfold non_null. apply negb_true_iff, Z.eqb_neq. exact Hptr. }
  unfold dmg_music_position, dmg_music_left_volume, dmg_music_right_volume,
    playing_dmg_music_item.
  project_data. rewrite Hnn. cbn [BN_ASSERT bind].
  destruct item as [ptr]. repeat split.
Qed.

(** X2: the DMG operations and queries that need DMG music active are fatal
    when its data handle is null; [pause_dmg_music] is fatal when DMG music
    is already paused, and [resume_dmg_music] when it is not paused. *)
Theorem dmg_music_preconditions (position : dmg_music_position.t)
    (left_volume right_volume : fixed) (d : data.static_data) :
  (dmg_music_playing d = false ->
     stop_dmg_music d = Fatal "There's no DMG music playing" /\
     pause_dmg_music d = Fatal "There's no DMG music playing" /\
     set_dmg_music_position position d = Fatal "There's no DMG music playing" /\
     set_dmg_music_volume left_volume right_volume d
       = Fatal "There's no DMG music playing" /\
     set_dmg_music_left_volume left_volume d
       = Fatal "There's no DMG music playing" /\
     set_dmg_music_right_volume right_volume d
       = Fatal "There's no DMG music playing" /\
     dmg_music_position d = Fatal "There's no DMG music playing" /\
     dmg_music_left_volume d = Fatal "There's no DMG music playing" /\
     dmg_music_right_volume d = Fatal "There's no DMG music playing") /\
  (dmg_music_playing d = true -> dmg_music_paused d = true ->
     pause_dmg_music d = Fatal "DMG music is already paused") /\
  (dmg_music_paused d = false ->
     resume_dmg_music d = Fatal "DMG music is not paused").
Proof.
  unfold dmg_music_playing, dmg_music_paused.
  split; [ | split ].
  - intros Hnone. unfold_operations. rewrite Hnone. cbn [BN_ASSERT bind].
    repeat split.
  - intros Hactive Hpaused. unfold pause_dmg_music.
    rewrite Hactive, Hpaused. reflexivity.
  - intros Hrunning. unfold resume_dmg_music. rewrite Hrunning. reflexivity.
Qed.

(** X3: with DMG music active and room in the queue, setting the volume of
    one channel gives that volume back from its query, leaves the other
    channel's volume as it was, and queues one command carrying both
    channels, left first. *)
Theorem dmg_music_channels_independent (v : fixed) (d : data.static_data) :
  dmg_music_playing d = true ->
  full (data.commands d) = false ->
  (exists d',
     set_dmg_music_left_volume v d = Ok d' /\
     dmg_music_left_volume d' = Ok v /\
     dmg_music_right_volume d' = dmg_music_right_volume d /\
     data.commands d'
       = data.commands d
         ++ [command.dmg_music_set_volume (_hw_dmg_music_volume v)
               (_hw_dmg_music_volume (data.dmg_music_right_volume d))]) /\
  (exists d',
     set_dmg_music_right_volume v d = Ok d' /\
     dmg_music_right_volume d' = Ok v /\
     dmg_music_left_volume d' = dmg_music_left_volume d /\
     data.commands d'
       = data.commands d
         ++ [command.dmg_music_set_volume
               (_hw_dmg_music_volume (data.dmg_music_left_volume d))
               (_hw_dmg_music_volume v)]).
Proof.
  unfold dmg_music_playing. intros Hactive Hroom.
  unfold set_dmg_music_left_volume, set_dmg_music_right_volume,
    set_dmg_music_volume, dmg_music_left_volume, dmg_music_right_volume.
  rewrite Hactive, Hroom. cbn [negb BN_ASSERT bind].
  split; eexists; (split; [ reflexivity | ]); project_data;
    rewrite Hactive; cbn [BN_ASSERT bind]; repeat split.
Qed.

(** X4: with room in the queue, a position set while music (or DMG music)
    is active is the position the query gives back before the next
    update. *)
Theorem set_position_round_trip (position : Z)
    (dmg_position : dmg_music_position.t) (d : data.static_data) :
  full (data.commands d) = false ->
  (music_playing d = true ->
     exists d',
       set_music_position position d = Ok d' /\
       music_position d' = Ok position /\
       data.commands d'
         = data.commands d ++ [command.music_set_position position]) /\
  (dmg_music_playing d = true ->
     exists d',
       set_dmg_music_position dmg_position d = Ok d' /\
       dmg_music_position d' = Ok dmg_position /\
       data.commands d'
         = data.commands d ++ [command.dmg_music_set_position dmg_position]).
Proof.
  unfold music_playing, dmg_music_playing. intros Hroom.
  split; intros Hactive.
  - unfold set_music_position, music_position. rewrite Hactive, Hroom.
    cbn [negb BN_ASSERT bind]. eexists. split; [ reflexivity | ].
    project_data. rewrite Hactive. split; reflexivity.
  - unfold set_dmg_music_position, dmg_music_position. rewrite Hactive, Hroom.
    cbn [negb BN_ASSERT bind]. eexists. split; [ reflexivity | ].
    project_data. rewrite Hactive. split; reflexivity.
Qed.

(** X5: pausing music that plays and resuming it right away, with room for
    both commands, succeeds and gives back the shadow state it started
    from, with the pause and the resume command added to the queue. *)
Theorem pause_resume_music (d : data.static_data) :
  music_playing d = true ->
  music_paused d = false ->
  (List.length (data.commands d) + 2 <= BN_CFG_AUDIO_MAX_COMMANDS)%nat ->
  exists d1,
    pause_music d = Ok d1 /\
    music_paused d1 = true /\
    resume_music d1
    = Ok (data.set_commands
            (data.commands d ++ [command.music_pause; command.music_resume]) d).
Proof.
  unfold music_playing, music_paused. intros Hplaying Hrunning Hroom.
  destruct (room_for_two (data.commands d) command.music_pause Hroom)
    as [Hfirst Hsecond].
  unfold pause_music. rewrite Hplaying, Hrunning, Hfirst.
  cbn [negb BN_ASSERT bind]. eexists. split; [ reflexivity | ].
  split; [ reflexivity | ].
  unfold resume_music. project_data. rewrite Hsecond.
  cbn [negb BN_ASSERT bind]. f_equal.
  destruct d as [cs mv dp lv rv id pos dd playing paused dpaused].
  project_data. subst paused. unfold push_back. simpl.
  rewrite <- app_assoc. reflexivity.
Qed.

(** X6: the same for DMG music: pause and resume in a row give back the
    shadow state, with the two commands queued. *)
Theorem pause_resume_dmg_music (d : data.static_data) :
  dmg_music_playing d = true ->
  dmg_music_paused d = false ->
  (List.length (data.commands d) + 2 <= BN_CFG_AUDIO_MAX_COMMANDS)%nat ->
  exists d1,
    pause_dmg_music d = Ok d1 /\
    dmg_music_paused d1 = true /\
    resume_dmg_music d1
    = Ok (data.set_commands
            (data.commands d
             ++ [command.dmg_music_pause; command.dmg_music_resume]) d).
Proof.
  unfold dmg_music_playing, dmg_music_paused. intros Hactive Hrunning Hroom.
  destruct (room_for_two (data.commands d) command.dmg_music_pause Hroom)
    as [Hfirst Hsecond].
  unfold pause_dmg_music. rewrite Hactive, Hrunning, Hfirst.
  cbn [negb BN_ASSERT bind]. eexists. split; [ reflexivity | ].
  split; [ reflexivity | ].
  unfold resume_dmg_music. project_data. rewrite Hsecond.
  cbn [negb BN_ASSERT bind]. f_equal.
  destruct d as [cs mv dp lv rv id pos dd playing paused dpaused].
  project_data. subst dpaused. unfold push_back. simpl.
  rewrite <- app_assoc. reflexivity.
Qed.

(** X7: with room for two commands, [play_music item] makes
    [playing_music_item] give [item]; [stop_music] right after succeeds and
    makes it give nothing; a second [stop_music] is then fatal. *)
Theorem play_stop_music_item (item : music_item.t) (v : fixed) (loop : bool)
    (d : data.static_data) :
  (List.length (data.commands d) + 2 <= BN_CFG_AUDIO_MAX_COMMANDS)%nat ->
  exists d1 d2,
    play_music item v loop d = Ok d1 /\
    playing_music_item d1 = Some item /\
    stop_music d1 = Ok d2 /\
    playing_music_item d2 = None /\
    music_playing d2 = false /\
    stop_music d2 = Fatal "There's no music playing".
Proof.
  intros Hroom.
  destruct (room_for_two (data.commands d)
              (command.music_play item loop (_hw_music_volume v)) Hroom)
    as [Hfirst Hsecond].
  unfold play_music. rewrite Hfirst. cbn [negb BN_ASSERT bind].
  eexists. eexists. split; [ reflexivity | ].
  split; [ destruct item; reflexivity | ].
  unfold stop_music at 1. project_data. rewrite Hsecond.
  cbn [negb BN_ASSERT bind].
  split; [ reflexivity | ].
  repeat split.
Qed.

Context {H : Type} {drv : hw.audio.driver H}.

(** X8: no operation other than [update] and [stop] removes or reorders a
    queued command: after a successful step the old queue is the front of
    the new one, followed by at most one new command (exactly one for the
    operations that push). *)
Theorem queue_is_append_only (o : operation) (w w' : data.static_data * H) :
  clears_queue o = false ->
  step o w = Ok w' ->
  exists added,
    data.commands (fst w') = data.commands (fst w) ++ added /\
    (List.length added <= 1)%nat /\
    (enqueues o = true -> List.length added = 1%nat) /\
    (enqueues o = false -> added = []).
Proof.
  destruct w as [d h]. intros Hkeeps Hstep.
  split_step Hstep; try discriminate Hkeeps; project_data;
    first
      [ exists []; rewrite app_nil_r;
        repeat split; auto; intros Hpush; discriminate Hpush
      | eexists; split; [ reflexivity | ];
        repeat split; auto; intros Hpush; discriminate Hpush ].
Qed.

(** X9: an operation outside the music group leaves the five music fields
    of the shadow state as they were, and an operation outside the DMG
    group leaves the five DMG fields as they were; in particular [stop]
    writes no DMG field and the sound operations write neither group. *)
Theorem music_and_dmg_music_independent (o : operation)
    (w w' : data.static_data * H) :
  step o w = Ok w' ->
  (writes_music o = false ->
     data.music_item_id (fst w') = data.music_item_id (fst w) /\
     data.music_position (fst w') = data.music_position (fst w) /\
     data.music_volume (fst w') = data.music_volume (fst w) /\
     data.music_playing (fst w') = data.music_playing (fst w) /\
     data.music_paused (fst w') = data.music_paused (fst w)) /\
  (writes_dmg_music o = false ->
     data.dmg_music_data (fst w') = data.dmg_music_data (fst w) /\
     data.dmg_music_position (fst w') = data.dmg_music_position (fst w) /\
     data.dmg_music_left_volume (fst w') = data.dmg_music_left_volume (fst w) /\
     data.dmg_music_right_volume (fst w') = data.dmg_music_right_volume (fst w) /\
     data.dmg_music_paused (fst w') = data.dmg_music_paused (fst w)).
Proof.
  destruct w as [d h]. intros Hstep.
  destruct (operation_eq_update o) as [-> | Hother].
  - split; intros Hgroup; discriminate Hgroup.
  - split_step Hstep; try congruence; project_data;
      (split; intros Hgroup; [ try discriminate Hgroup | try discriminate Hgroup ]);
      repeat split.
Qed.

(** X10: a second [update] right after the first executes no command: the
    driver only sees its own update again, and the queue stays empty. *)
Theorem update_twice (d : data.static_data) (h : H) :
  snd (update (update (d, h))) = hw.audio.update (snd (update (d, h))) /\
  data.commands (fst (update (update (d, h)))) = [].
Proof.
  destruct (update (d, h)) as [d1 h1] eqn:Hfirst.
  assert (Hempty : data.commands d1 = []).
  { pose proof (update_commands d h) as Hc. rewrite Hfirst in Hc. exact Hc. }
  split; [ | apply update_commands ].
  rewrite update_hardware, Hempty. reflexivity.
Qed.

End MoreAudio.

(** ** What reaches the driver *)

Lemma to_uint16_t_small (z : Z) : 0 <= z < 65536 -> to_uint16_t z = z.
Proof. intros Hz. unfold to_uint16_t. apply Z.mod_small. lia. Qed.

Lemma to_uint8_t_small (z : Z) : 0 <= z < 256 -> to_uint8_t z = z.
Proof. intros Hz. unfold to_uint8_t. apply Z.mod_small. lia. Qed.

Lemma to_int16_t_small (z : Z) : -32768 <= z < 32768 -> to_int16_t z = z.
Proof.
  intros Hz. unfold to_int16_t, wrap_signed.
  change (2 ^ (16 - 1)) with 32768. change (2 ^ 16) with 65536.
  rewrite Z.mod_small; lia.
Qed.

(** X11: [stop] discards what was pending: with the capacity the static
    assertion demands, the update that follows [stop] sends the driver its
    own update, a music stop when music had been playing, and the stop of
    all sounds, and none of the commands queued before [stop]. *)
Theorem stop_discards_pending {cfg : audio_config} (d : data.static_data)
    (r : recorder.t) :
  max_commands_valid ->
  exists d',
    stop d = Ok d' /\
    recorder.calls (snd (update (d', r)))
    = recorder.calls r
      ++ [recorder.Update]
      ++ (if music_playing d then [recorder.StopMusic] else [])
      ++ [recorder.StopAllSounds].
Proof.
  intros Hcap. exists (stopped d). split; [ apply stop_stopped, Hcap | ].
  rewrite update_hardware, recorder_execute_all.
  unfold stopped, music_playing.
  destruct (data.music_playing d); simpl; rewrite <- app_assoc; reflexivity.
Qed.

(** X12: a command built by a factory and executed invokes the matching
    driver primitive with the arguments the factory was given, whenever
    the arguments fit the fields that store them: 16 unsigned bits for
    volumes, speeds and tracker rows, 8 unsigned bits for panning, 16
    signed bits for the priority. *)
Theorem command_round_trip (r : recorder.t) (item : music_item.t)
    (sound : sound_item.t) (loop : bool)
    (volume speed panning priority position pattern row handle : Z) :
  0 <= volume < 65536 ->
  0 <= speed < 65536 ->
  0 <= panning < 256 ->
  -32768 <= priority < 32768 ->
  0 <= row < 65536 ->
  INT_MIN <= handle <= INT_MAX ->
  command.execute (command.music_play item loop volume) r
    = recorder.record (recorder.PlayMusic (music_item.id item) volume loop) r /\
  command.execute command.music_stop r = recorder.record recorder.StopMusic r /\
  command.execute command.music_pause r = recorder.record recorder.PauseMusic r /\
  command.execute command.music_resume r
    = recorder.record recorder.ResumeMusic r /\
  command.execute (command.music_set_position position) r
    = recorder.record (recorder.SetMusicPosition position) r /\
  command.execute (command.music_set_volume volume) r
    = recorder.record (recorder.SetMusicVolume volume) r /\
  command.execute (command.dmg_music_play (dmg_music_item.mk handle) loop speed) r
    = recorder.record (recorder.PlayDmgMusic handle speed loop) r /\
  command.execute command.dmg_music_stop r
    = recorder.record recorder.StopDmgMusic r /\
  command.execute command.dmg_music_pause r
    = recorder.record recorder.PauseDmgMusic r /\
  command.execute command.dmg_music_resume r
    = recorder.record recorder.ResumeDmgMusic r /\
  command.execute
      (command.dmg_music_set_position (dmg_music_position.mk pattern row)) r
    = recorder.record (recorder.SetDmgMusicPosition pattern row) r /\
  command.execute (command.dmg_music_set_volume volume speed) r
    = recorder.record (recorder.SetDmgMusicVolume volume speed) r /\
  command.execute (command.sound_play priority sound) r
    = recorder.record (recorder.PlaySound priority (sound_item.id sound)) r /\
  command.execute (command.sound_play_ex priority sound volume speed panning) r
    = recorder.record
        (recorder.PlaySoundEx priority (sound_item.id sound) volume speed
           panning) r /\
  command.execute command.sound_stop_all r
    = recorder.record recorder.StopAllSounds r.
Proof.
  intros Hvolume Hspeed Hpanning Hpriority Hrow Hhandle.
  unfold command.execute, command.music_play, command.music_set_position,
    command.music_set_volume, command.dmg_music_play,
    command.dmg_music_set_position, command.dmg_music_set_volume,
    command.sound_play, command.sound_play_ex, command.command.
  cbn [command._type command._id command._volume command._speed
         command._priority command._panning command._loop
         dmg_music_item.data_ptr dmg_music_position.pattern
         dmg_music_position.row].
  rewrite !(to_uint16_t_small volume), !(to_uint16_t_small speed),
    (to_uint16_t_small row), (to_uint8_t_small panning),
    !(to_int16_t_small priority), (to_int_small handle) by assumption.
  repeat split.
Qed.


(** * Properties of fixed_t *)

Section FixedPoint.

Import fixed_t fixed_members.

Variable Precision : Z.
Hypothesis precision_valid : 0 < Precision < 31.

Lemma scale_pow2 : scale Precision = 2 ^ Precision.
Proof. unfold scale. apply Z.shiftl_1_l. Qed.

Lemma scale_bounds : 2 <= scale Precision <= 2 ^ 30.
Proof.
  rewrite scale_pow2. split.
  - change 2 with (2 ^ 1) at 1. apply Z.pow_le_mono_r; lia.
  - apply Z.pow_le_mono_r; lia.
Qed.

Lemma to_int64_t_small (z : Z) : - 2 ^ 63 <= z < 2 ^ 63 -> to_int64_t z = z.
Proof.
  intros Hz. unfold to_int64_t, wrap_signed.
  change (2 ^ (64 - 1)) with (2 ^ 63).
  rewrite Z.mod_small; lia.
Qed.

Lemma fraction_mod (a : t Precision) :
  fraction a = data a mod scale Precision.
Proof.
  unfold fraction. rewrite scale_pow2.
  rewrite <- Z.land_ones by lia.
  rewrite Z.ones_equiv. reflexivity.
Qed.

Lemma shiftr_div (z : Z) : Z.shiftr z Precision = z / scale Precision.
Proof. rewrite scale_pow2. apply Z.shiftr_div_pow2. lia. Qed.

(** X14: [fraction] always lies in [0, scale), and together with the
    arithmetic shift it rebuilds the value.  [integer] truncates towards
    zero instead: integer and fraction rebuild a value that is not
    negative, but for a negative value with a fraction they rebuild the
    value plus one whole unit. *)
Theorem integer_fraction_split (a : t Precision) :
  0 <= fraction a < scale Precision /\
  Z.shiftr (data a) Precision * scale Precision + fraction a = data a /\
  (0 <= data a ->
     integer a * scale Precision + fraction a = data a) /\
  (data a < 0 -> fraction a <> 0 ->
     integer a * scale Precision + fraction a = data a + scale Precision) /\
  (0 <= data a <= INT_MAX -> unsigned_integer a = integer a).
Proof.
  pose proof scale_bounds as Hk.
  rewrite fraction_mod, shiftr_div. unfold integer, unsigned_integer.
  rewrite shiftr_div.
  set (k := scale Precision) in *. set (v := data a).
  pose proof (Z.mod_pos_bound v k ltac:(lia)) as Hmod.
  pose proof (Z.div_mod v k ltac:(lia)) as Hdiv.
  split; [ exact Hmod | ].
  split; [ lia | ].
  split; [ | split ].
  - intros Hv. rewrite Z.quot_div_nonneg by lia. lia.
  - intros Hv Hfrac.
    assert (Hq : Z.quot v k = v / k + 1).
    { replace v with (- - v) at 1 by lia.
      rewrite Z.quot_opp_l by lia.
      rewrite Z.quot_div_nonneg by lia.
      rewrite Z.div_opp_l_nz by (exact Hfrac || lia). lia. }
    rewrite Hq. lia.
  - intros Hv. rewrite Z.quot_div_nonneg by lia.
    unfold to_unsigned. apply Z.mod_small.
    unfold INT_MAX in Hv.
    split; [ apply Z.div_pos; lia | ].
    apply Z.div_lt_upper_bound; nia.
Qed.

(** X15: an integer that fits the integer part converts to a fixed-point
    value with that integer part and no fraction; the conversion keeps the
    order of integers. *)
Theorem of_int_round_trip (n m : Z) :
  - 2 ^ (31 - Precision) <= n < 2 ^ (31 - Precision) ->
  - 2 ^ (31 - Precision) <= m < 2 ^ (31 - Precision) ->
  data (of_int Precision n) = n * scale Precision /\
  integer (of_int Precision n) = n /\
  fraction (of_int Precision n) = 0 /\
  ltb (of_int Precision n) (of_int Precision m) = (n <? m) /\
  eqb (of_int Precision n) (of_int Precision m) = (n =? m).
Proof.
  intros Hn Hm.
  pose proof scale_bounds as Hk.
  assert (Hsplit : 2 ^ 31 = 2 ^ (31 - Precision) * scale Precision).
  { rewrite scale_pow2, <- Z.pow_add_r by lia. f_equal. lia. }
  assert (Hdata : forall i,
            - 2 ^ (31 - Precision) <= i < 2 ^ (31 - Precision) ->
            data (of_int Precision i) = i * scale Precision).
  { intros i Hi. unfold of_int. cbn [data]. apply to_int_small.
    unfold INT_MIN, INT_MAX. nia. }
  split; [ apply Hdata, Hn | ].
  split; [ unfold integer; rewrite Hdata by exact Hn;
           apply Z.quot_mul; lia | ].
  split; [ rewrite fraction_mod, Hdata by exact Hn; apply Z.mod_mul; lia | ].
  unfold ltb, eqb. rewrite (Hdata n Hn), (Hdata m Hm).
  split.
  - destruct (Z.ltb_spec n m); [ apply Z.ltb_lt | apply Z.ltb_ge ]; nia.
  - destruct (Z.eqb_spec n m); [ apply Z.eqb_eq | apply Z.eqb_neq ]; nia.
Qed.

Lemma of_int_one : of_int Precision 1 = create (scale Precision).
Proof.
  pose proof scale_bounds as Hk.
  unfold of_int. f_equal. rewrite Z.mul_1_l. apply to_int_small.
  unfold INT_MIN, INT_MAX. lia.
Qed.

Lemma shiftr_scale (z : Z) : Z.shiftr (z * scale Precision) Precision = z.
Proof.
  pose proof scale_bounds as Hk.
  rewrite shiftr_div. apply Z.div_mul. lia.
Qed.

(** X16: one is neutral for multiplication and division, on either side of
    the multiplication and for the [int] overloads too; dividing by a
    fixed-point or an [int] zero is fatal. *)
Theorem multiplication_division_by_one (a : t Precision) :
  INT_MIN <= data a <= INT_MAX ->
  multiplication a (of_int Precision 1) = a /\
  multiplication (of_int Precision 1) a = a /\
  multiplication_int a 1 = a /\
  division a (of_int Precision 1) = Ok a /\
  division_int a 1 = Ok a /\
  division a (create 0) = Fatal "Other's internal value is zero" /\
  unsafe_division a (create 0) = Fatal "Other's internal value is zero" /\
  division_int a 0 = Fatal "Integer is zero" /\
  unsafe_division_int a 0 = Fatal "Integer is zero".
Proof.
  intros Ha. pose proof scale_bounds as Hk.
  rewrite of_int_one. destruct a as [v]. cbn [data] in Ha.
  unfold INT_MIN, INT_MAX in Ha.
  assert (Hwide : to_int64_t (v * scale Precision) = v * scale Precision)
    by (apply to_int64_t_small; nia).
  assert (Hint : to_int v = v)
    by (apply to_int_small; unfold INT_MIN, INT_MAX; lia).
  unfold multiplication, multiplication_int, division, division_int,
    unsafe_division, unsafe_division_int.
  cbn [data].
  rewrite (Z.mul_comm (scale Precision) v), Hwide, shiftr_scale, Hint.
  rewrite Z.mul_1_r, Z.quot_1_r, Hint.
  rewrite Z.quot_mul by lia. rewrite Hint.
  assert (Hnz : (scale Precision =? 0) = false) by (apply Z.eqb_neq; lia).
  rewrite Hnz.
  repeat split.
Qed.

(** X17: on integers, fixed-point multiplication is integer
    multiplication, as long as the product of the two raw values fits 64
    bits and the product of the integers fits the integer part. *)
Theorem multiplication_of_ints (n m : Z) :
  - 2 ^ (31 - Precision) <= n < 2 ^ (31 - Precision) ->
  - 2 ^ (31 - Precision) <= m < 2 ^ (31 - Precision) ->
  - 2 ^ (31 - Precision) <= n * m < 2 ^ (31 - Precision) ->
  multiplication (of_int Precision n) (of_int Precision m)
  = of_int Precision (n * m).
Proof.
  intros Hn Hm Hnm.
  pose proof scale_bounds as Hk.
  assert (Hsplit : 2 ^ 31 = 2 ^ (31 - Precision) * scale Precision).
  { rewrite scale_pow2, <- Z.pow_add_r by lia. f_equal. lia. }
  assert (Hdata : forall i,
            - 2 ^ (31 - Precision) <= i < 2 ^ (31 - Precision) ->
            to_int (i * scale Precision) = i * scale Precision).
  { intros i Hi. apply to_int_small. unfold INT_MIN, INT_MAX. nia. }
  unfold multiplication, of_int. cbn [data].
  rewrite (Hdata n Hn), (Hdata m Hm), (Hdata (n * m) Hnm).
  f_equal.
  replace (n * scale Precision * (m * scale Precision))
    with (n * m * scale Precision * scale Precision) by ring.
  rewrite to_int64_t_small.
  - rewrite shiftr_scale. apply Hdata, Hnm.
  - assert (Hbig : 2 ^ 63 = 2 ^ 31 * 2 ^ 32) by reflexivity.
    assert (Hs : scale Precision <= 2 ^ 30) by lia.
    assert (Hp : - 2 ^ 31 <= n * m * scale Precision < 2 ^ 31) by nia.
    change (2 ^ 30) with 1073741824 in *.
    change (2 ^ 31) with 2147483648 in *.
    change (2 ^ 32) with 4294967296 in *.
    nia.
Qed.


(** X19: the two-argument constructor is fatal on a negative fraction;
    given an integer part that is not negative and fits, and a fraction
    below one unit, it builds the value whose [integer] and [fraction] are
    the two arguments. *)
Theorem of_int_fraction_round_trip (i f : Z) :
  (f < 0 -> of_int_fraction Precision i f = Fatal "Fraction is negative") /\
  (0 <= i < 2 ^ (31 - Precision) -> 0 <= f < scale Precision ->
     exists a,
       of_int_fraction Precision i f = Ok a /\
       data a = i * scale Precision + f /\
       integer a = i /\
       fraction a = f).
Proof.
  pose proof scale_bounds as Hk.
  split.
  - intros Hf. unfold of_int_fraction.
    destruct (Z.geb_spec f 0) as [Hge | _]; [ lia | reflexivity ].
  - intros Hi Hf.
    assert (Hsplit : 2 ^ 31 = 2 ^ (31 - Precision) * scale Precision).
    { rewrite scale_pow2, <- Z.pow_add_r by lia. f_equal. lia. }
    unfold of_int_fraction.
    destruct (Z.geb_spec f 0) as [_ | Hlt]; [ | lia ].
    cbn [BTN_CONSTEXPR_ASSERT bind]. eexists. split; [ reflexivity | ].
    assert (Hvalue : to_int (to_int (i * scale Precision) + f)
                     = i * scale Precision + f).
    { rewrite (to_int_small (i * scale Precision))
        by (unfold INT_MIN, INT_MAX; nia).
      apply to_int_small. unfold INT_MIN, INT_MAX. nia. }
    unfold integer. rewrite fraction_mod. cbn [data]. rewrite Hvalue.
    split; [ reflexivity | ].
    split.
    + rewrite Z.quot_div_nonneg by nia.
      rewrite Z.div_add_l by lia. rewrite Z.div_small by lia. lia.
    + rewrite Z.add_comm, Z.mod_add by lia. apply Z.mod_small. lia.
Qed.

(** X20: as long as no result leaves the [int] range, subtraction undoes
    addition, negation is its own inverse, and addition commutes. *)
Theorem add_sub_neg (a b : t Precision) :
  INT_MIN <= data a <= INT_MAX ->
  INT_MIN <= data a + data b <= INT_MAX ->
  sub (add a b) b = a /\
  add a b = add b a /\
  (data a <> INT_MIN -> neg (neg a) = a) /\
  (data a <> INT_MIN -> add a (neg a) = create 0).
Proof.
  intros Ha Hsum. destruct a as [x]. destruct b as [y].
  cbn [data] in *.
  unfold sub, add, neg. cbn [data].
  rewrite (to_int_small (x + y)) by exact Hsum.
  replace (x + y - y) with x by lia.
  rewrite (to_int_small x) by exact Ha.
  split; [ reflexivity | ].
  split; [ rewrite (Z.add_comm y x), (to_int_small (x + y)) by exact Hsum;
           reflexivity | ].
  assert (Hneg : x <> INT_MIN -> to_int (- x) = - x).
  { intros Hx. apply to_int_small. unfold INT_MIN, INT_MAX in *. lia. }
  split; intros Hx; rewrite (Hneg Hx).
  - rewrite Z.opp_involutive, (to_int_small x) by exact Ha. reflexivity.
  - rewrite Z.add_opp_diag_r. reflexivity.
Qed.

End FixedPoint.

(** X21: converting to a lower precision keeps the integer part and drops
    the low fraction bits towards zero: the result differs from the value
    by less than one unit of the lower precision. *)
Theorem convert_to_lower_precision (P Q : Z) (v : fixed_t.t Q) :
  0 < P < Q ->
  Q < 31 ->
  fixed_t.data (fixed_t.convert P v)
    = Z.quot (fixed_t.data v) (2 ^ (Q - P)) /\
  Z.abs (fixed_t.data v - 2 ^ (Q - P) * fixed_t.data (fixed_t.convert P v))
    < 2 ^ (Q - P) /\
  fixed_members.integer (fixed_t.convert P v) = fixed_members.integer v /\
  (0 <= fixed_t.data v -> 0 <= fixed_t.data (fixed_t.convert P v)) /\
  (fixed_t.data v <= 0 -> fixed_t.data (fixed_t.convert P v) <= 0).
Proof.
  intros HP HQ.
  assert (Hsplit : 2 ^ Q = 2 ^ (Q - P) * 2 ^ P).
  { rewrite <- Z.pow_add_r by lia. f_equal. lia. }
  assert (Hk : 0 < 2 ^ (Q - P)) by (apply Z.pow_pos_nonneg; lia).
  assert (HkP : 0 < 2 ^ P) by (apply Z.pow_pos_nonneg; lia).
  assert (Hconv : fixed_t.data (fixed_t.convert P v)
                  = Z.quot (fixed_t.data v) (2 ^ (Q - P))).
  { unfold fixed_t.convert, fixed_t.scale. cbn [fixed_t.data].
    destruct (Z.ltb_spec P Q) as [_ | ?]; [ | lia ].
    rewrite !Z.shiftl_1_l, Hsplit. f_equal. apply Z.quot_mul. lia. }
  split; [ exact Hconv | ].
  rewrite Hconv. unfold fixed_members.integer, fixed_t.scale.
  cbn [fixed_t.data]. rewrite !Z.shiftl_1_l.
  set (x := fixed_t.data v). set (k := 2 ^ (Q - P)) in *.
  split.
  - pose proof (Z.quot_rem' x k) as Hqr.
    pose proof (Z.rem_bound_abs x k ltac:(lia)) as Hr.
    replace (x - k * Z.quot x k) with (Z.rem x k) by lia. lia.
  - split; [ | split ].
    + rewrite Hconv. fold x k. rewrite Z.quot_quot by lia.
      rewrite Hsplit. reflexivity.
    + intros Hx. apply Z.quot_pos; lia.
    + intros Hx. replace x with (- - x) by lia.
      rewrite Z.quot_opp_l by lia.
      pose proof (Z.quot_pos (- x) k ltac:(lia) ltac:(lia)). lia.
Qed.

(** * Ownership of a background tiles handle *)

Lemma to_int8_t_small (z : Z) : -128 <= z <= 127 -> to_int8_t z = z.
Proof.
  intros Hz. unfold to_int8_t, wrap_signed.
  change (2 ^ (8 - 1)) with 128. change (2 ^ 8) with 256.
  rewrite Z.mod_small; lia.
Qed.

(** X22: moving a tiles pointer moves its ownership: after the move
    constructor the source holds -1 and its destructor releases nothing,
    while destroying the new object does what destroying the source would
    have done, so the handle is released once; move assignment exchanges
    the two handles, so destroying both objects afterwards releases the
    same two handles. *)
Theorem move_transfers_ownership {W : Type} (_destroy : Z -> W -> W)
    (p q : bg_tiles_ptr.t) (w : W) :
  -128 <= bg_tiles_ptr._handle p <= 127 ->
  let moved := fst (bg_tiles_ptr.move_construct p) in
  let source := snd (bg_tiles_ptr.move_construct p) in
  moved = p /\
  bg_tiles_ptr._handle source = -1 /\
  bg_tiles_ptr.destructor _destroy source w = w /\
  bg_tiles_ptr.destructor _destroy source
    (bg_tiles_ptr.destructor _destroy moved w)
  = bg_tiles_ptr.destructor _destroy p w /\
  bg_tiles_ptr.move_assign p q = (q, p) /\
  bg_tiles_ptr.eqb moved p = true /\
  (0 <= bg_tiles_ptr._handle p -> bg_tiles_ptr.neqb source p = true).
Proof.
  intros Hrange. destruct p as [hp]. destruct q as [hq].
  cbn [bg_tiles_ptr._handle] in Hrange.
  unfold bg_tiles_ptr.move_construct, bg_tiles_ptr.move_assign,
    bg_tiles_ptr.bg_tiles_ptr, bg_tiles_ptr.destructor, bg_tiles_ptr.eqb,
    bg_tiles_ptr.neqb.
  cbn [fst snd bg_tiles_ptr._handle].
  rewrite (to_int8_t_small hp Hrange).
  split; [ reflexivity | ].
  split; [ reflexivity | ].
  split; [ reflexivity | ].
  split; [ reflexivity | ].
  split; [ reflexivity | ].
  split; [ apply Z.eqb_refl | ].
  intros Hvalid. apply negb_true_iff, Z.eqb_neq.
  cbn [bg_tiles_ptr._handle]. lia.
Qed.

(** * The graphics index of an experience amount *)

Lemma graphics_index_position (e g : Z) :
  object_message._graphics_index e = Ok g ->
  exists n,
    (n < 28)%nat /\
    e = nth n object_message.experiences 0 /\
    g = 4 + 2 * Z.of_nat n.
Proof.
  unfold object_message._graphics_index.
  repeat match goal with
  | |- context [if e =? ?k then Ok ?c else _] =>
      let E := fresh "E" in
      destruct (e =? k) eqn:E;
      [ apply Z.eqb_eq in E; intros Hg; injection Hg as <-;
        exists (Z.to_nat ((c - 4) / 2)); subst e;
        split; [ vm_compute; lia | split; reflexivity ]
      | clear E ]
  end.
  intros Hg. discriminate Hg.
Qed.

Lemma experiences_increasing (n m : nat) :
  (n < 28)%nat -> (m < 28)%nat ->
  nth n object_message.experiences 0 < nth m object_message.experiences 0 ->
  (n < m)%nat.
Proof.
  intros Hn Hm Hlt.
  assert (Hall : forallb
                   (fun i =>
                      forallb
                        (fun j =>
                           implb (nth i object_message.experiences 0
                                  <? nth j object_message.experiences 0)
                                 (i <? j)%nat)
                        (seq 0 28))
                   (seq 0 28) = true) by (vm_compute; reflexivity).
  rewrite forallb_forall in Hall.
  specialize (Hall n ltac:(apply in_seq; lia)).
  rewrite forallb_forall in Hall.
  specialize (Hall m ltac:(apply in_seq; lia)).
  apply Z.ltb_lt in Hlt. rewrite Hlt in Hall.
  apply Nat.ltb_lt. exact Hall.
Qed.

(** X23: [_graphics_index] succeeds exactly on the experience amounts its
    switch lists and is fatal on every other; the n-th listed amount gets
    index 4 + 2n, so every index is even and between 4 and 58, and a larger
    amount gets an index larger by at least 2: the frame pairs (index,
    index + 1) of two different amounts never overlap. *)
Theorem graphics_index_table (e1 e2 g1 g2 : Z) (n : nat) :
  succeeds (object_message._graphics_index e1)
    = existsb (Z.eqb e1) object_message.experiences /\
  ((n < 28)%nat ->
     object_message._graphics_index (nth n object_message.experiences 0)
     = Ok (4 + 2 * Z.of_nat n)) /\
  (object_message._graphics_index e1 = Ok g1 ->
     4 <= g1 <= 58 /\ Z.even g1 = true /\ 1 <= e1 <= 200) /\
  (object_message._graphics_index e1 = Ok g1 ->
   object_message._graphics_index e2 = Ok g2 ->
   e1 < e2 -> g1 + 2 <= g2).
Proof.
  split; [ | split; [ | split ] ].
  - unfold object_message._graphics_index, object_message.experiences.
    cbn [existsb].
    repeat (destruct (e1 =? _); [ reflexivity | ]; cbn [orb]).
    reflexivity.
  - intros Hn.
    do 28 (destruct n as [| n]; [ reflexivity | ]).
    lia.
  - intros Hg.
    destruct (graphics_index_position e1 g1 Hg) as (k & Hk & -> & ->).
    split; [ lia | ].
    split; [ rewrite Z.even_add_mul_2; reflexivity | ].
    clear Hg.
    do 28 (destruct k as [| k]; [ cbn [nth object_message.experiences]; lia | ]).
    lia.
  - intros Hg1 Hg2 Hlt.
    destruct (graphics_index_position e1 g1 Hg1) as (k1 & Hk1 & -> & ->).
    destruct (graphics_index_position e2 g2 Hg2) as (k2 & Hk2 & -> & ->).
    pose proof (experiences_increasing k1 k2 Hk1 Hk2 Hlt). lia.
Qed.

(** * The further properties at concrete inputs *)

Lemma play_dmg_music_synchronous_witness :
  @full default_config (data.commands data.initial) = false /\
  dmg_music_item.data_ptr tune <> nullptr /\
  exists d',
    @play_dmg_music default_config tune 1 true data.initial = Ok d' /\
    dmg_music_playing d' = true /\
    playing_dmg_music_item d' = Some tune.
Proof.
  assert (Hptr : dmg_music_item.data_ptr tune <> nullptr)
    by (vm_compute; discriminate).
  split; [ reflexivity | ].
  split; [ exact Hptr | ].
  destruct (@play_dmg_music_synchronous default_config tune 1 true data.initial)
    as (d' & Hplay & Hactive & _ & _ & Hqueries).
  - reflexivity.
  - exists d'. split; [ exact Hplay | ].
    split; [ rewrite Hactive; reflexivity | ].
    apply Hqueries, Hptr.
Defined.

Lemma dmg_music_preconditions_witness :
  dmg_music_playing data.initial = false /\
  dmg_music_paused data.initial = false /\
  dmg_music_playing (data.set_dmg_music_paused true dmg_state) = true /\
  dmg_music_paused (data.set_dmg_music_paused true dmg_state) = true /\
  @stop_dmg_music default_config data.initial
    = Fatal "There's no DMG music playing" /\
  @resume_dmg_music default_config data.initial
    = Fatal "DMG music is not paused" /\
  @pause_dmg_music default_config (data.set_dmg_music_paused true dmg_state)
    = Fatal "DMG music is already paused".
Proof.
  pose proof (@dmg_music_preconditions default_config dmg_music_position.default
                one one data.initial) as (Hnone & _ & Hresume).
  pose proof (@dmg_music_preconditions default_config dmg_music_position.default
                one one (data.set_dmg_music_paused true dmg_state))
    as (_ & Hpaused & _).
  split; [ reflexivity | ].
  split; [ reflexivity | ].
  split; [ reflexivity | ].
  split; [ reflexivity | ].
  split; [ apply Hnone; reflexivity | ].
  split; [ apply Hresume; reflexivity | ].
  apply Hpaused; reflexivity.
Defined.

Lemma dmg_music_channels_independent_witness :
  dmg_music_playing dmg_state = true /\
  @full default_config (data.commands dmg_state) = false /\
  exists d',
    @set_dmg_music_left_volume default_config half dmg_state = Ok d' /\
    dmg_music_left_volume d' = Ok half /\
    dmg_music_right_volume d' = dmg_music_right_volume dmg_state.
Proof.
  split; [ reflexivity | ].
  split; [ reflexivity | ].
  destruct (@dmg_music_channels_independent default_config half dmg_state)
    as ((d' & Hset & Hleft & Hright & _) & _).
  - reflexivity.
  - reflexivity.
  - exists d'. repeat split; assumption.
Defined.

Lemma set_position_round_trip_witness :
  @full default_config (data.commands busy_state) = false /\
  music_playing busy_state = true /\
  dmg_music_playing busy_state = true /\
  (exists d',
     @set_music_position default_config 44 busy_state = Ok d' /\
     music_position d' = Ok 44) /\
  (exists d',
     @set_dmg_music_position default_config (dmg_music_position.mk 2 9)
       busy_state = Ok d' /\
     dmg_music_position d' = Ok (dmg_music_position.mk 2 9)).
Proof.
  pose proof (@set_position_round_trip default_config 44
                (dmg_music_position.mk 2 9) busy_state) as Hround.
  destruct Hround as [Hmusic Hdmg]; [ reflexivity | ].
  split; [ reflexivity | ].
  split; [ reflexivity | ].
  split; [ reflexivity | ].
  split.
  - destruct Hmusic as (d' & Hset & Hget & _); [ reflexivity | ].
    exists d'. split; assumption.
  - destruct Hdmg as (d' & Hset & Hget & _); [ reflexivity | ].
    exists d'. split; assumption.
Defined.

Lemma pause_resume_music_witness :
  music_playing playing_state = true /\
  music_paused playing_state = false /\
  (List.length (data.commands playing_state) + 2 <= 16)%nat /\
  exists d1,
    @pause_music default_config playing_state = Ok d1 /\
    @resume_music default_config d1
    = Ok (data.set_commands [command.music_pause; command.music_resume]
            playing_state).
Proof.
  split; [ reflexivity | ].
  split; [ reflexivity | ].
  split; [ simpl; lia | ].
  destruct (@pause_resume_music default_config playing_state)
    as (d1 & Hpause & _ & Hresume).
  - reflexivity.
  - reflexivity.
  - simpl. lia.
  - exists d1. split; [ exact Hpause | exact Hresume ].
Defined.

Lemma pause_resume_dmg_music_witness :
  dmg_music_playing dmg_state = true /\
  dmg_music_paused dmg_state = false /\
  (List.length (data.commands dmg_state) + 2 <= 16)%nat /\
  exists d1,
    @pause_dmg_music default_config dmg_state = Ok d1 /\
    @resume_dmg_music default_config d1
    = Ok (data.set_commands [command.dmg_music_pause; command.dmg_music_resume]
            dmg_state).
Proof.
  split; [ reflexivity | ].
  split; [ reflexivity | ].
  split; [ simpl; lia | ].
  destruct (@pause_resume_dmg_music default_config dmg_state)
    as (d1 & Hpause & _ & Hresume).
  - reflexivity.
  - reflexivity.
  - simpl. lia.
  - exists d1. split; [ exact Hpause | exact Hresume ].
Defined.

Lemma play_stop_music_item_witness :
  (List.length (data.commands data.initial) + 2 <= 16)%nat /\
  exists d1 d2,
    @play_music default_config song one false data.initial = Ok d1 /\
    playing_music_item d1 = Some song /\
    @stop_music default_config d1 = Ok d2 /\
    playing_music_item d2 = None.
Proof.
  split; [ simpl; lia | ].
  destruct (@play_stop_music_item default_config song one false data.initial)
    as (d1 & d2 & Hplay & Hitem & Hstop & Hnone & _).
  - simpl. lia.
  - exists d1, d2. repeat split; assumption.
Defined.

Lemma queue_is_append_only_witness :
  clears_queue op_pause_music = false /\
  enqueues op_pause_music = true /\
  exists w' added,
    @step default_config recorder.t recorder.driver op_pause_music
      (busy_state, recorder.silent) = Ok w' /\
    data.commands (fst w') = data.commands busy_state ++ added /\
    List.length added = 1%nat.
Proof.
  split; [ reflexivity | ].
  split; [ reflexivity | ].
  eexists.
  destruct (@queue_is_append_only default_config recorder.t recorder.driver
              op_pause_music (busy_state, recorder.silent)
              (data.set_music_paused true
                 (push_back command.music_pause busy_state), recorder.silent))
    as (added & Hqueue & _ & Hone & _).
  - reflexivity.
  - reflexivity.
  - exists added. split; [ reflexivity | ].
    split; [ exact Hqueue | apply Hone; reflexivity ].
Defined.

Lemma music_and_dmg_music_independent_witness :
  writes_dmg_music op_stop = false /\
  writes_music (op_play_dmg_music tune 1 true) = false /\
  (exists w',
     @step default_config recorder.t recorder.driver op_stop
       (busy_state, recorder.silent) = Ok w' /\
     data.dmg_music_data (fst w') = data.dmg_music_data busy_state) /\
  (exists w',
     @step default_config recorder.t recorder.driver
       (op_play_dmg_music tune 1 true) (playing_state, recorder.silent)
     = Ok w' /\
     data.music_playing (fst w') = data.music_playing playing_state).
Proof.
  split; [ reflexivity | ].
  split; [ reflexivity | ].
  split.
  - eexists. split; [ reflexivity | ].
    refine (proj1 (proj2 (@music_and_dmg_music_independent default_config
                            recorder.t recorder.driver op_stop
                            (busy_state, recorder.silent) _ _) _)).
    + reflexivity.
    + reflexivity.
  - eexists. split; [ reflexivity | ].
    refine (proj1 (proj2 (proj2 (proj2
              (proj1 (@music_and_dmg_music_independent default_config
                        recorder.t recorder.driver
                        (op_play_dmg_music tune 1 true)
                        (playing_state, recorder.silent) _ _) _))))).
    + reflexivity.
    + reflexivity.
Defined.

Lemma stop_discards_pending_witness :
  @max_commands_valid default_config /\
  exists d',
    @stop default_config busy_state = Ok d' /\
    recorder.calls (snd (update (d', recorder.silent)))
    = [recorder.Update; recorder.StopMusic; recorder.StopAllSounds].
Proof.
  assert (Hcap : @max_commands_valid default_config)
    by (unfold max_commands_valid; simpl; lia).
  split; [ exact Hcap | ].
  destruct (@stop_discards_pending default_config busy_state recorder.silent
              Hcap) as (d' & Hstop & Hcalls).
  exists d'. split; [ exact Hstop | exact Hcalls ].
Defined.

Lemma command_round_trip_witness :
  command.execute (command.dmg_music_set_volume 8 3) recorder.silent
  = recorder.record (recorder.SetDmgMusicVolume 8 3) recorder.silent /\
  command.execute (command.sound_play_ex 5 (sound_item.mk 2) 8 3 128)
    recorder.silent
  = recorder.record (recorder.PlaySoundEx 5 2 8 3 128) recorder.silent.
Proof.
  destruct (@command_round_trip recorder.silent song (sound_item.mk 2)
              true 8 3 128 5 0 1 2 134217728)
    as (_ & _ & _ & _ & _ & _ & _ & _ & _ & _ & _ & Hvolume & _ & Hsound & _);
    [ lia | lia | lia | lia | lia | vm_compute; split; discriminate | ].
  split; [ exact Hvolume | exact Hsound ].
Defined.


Lemma integer_fraction_split_witness :
  0 < 12 < 31 /\
  fixed_members.integer (fixed_t.create (Precision := 12) (-6144)) = -1 /\
  fixed_members.fraction (fixed_t.create (Precision := 12) (-6144)) = 2048 /\
  fixed_members.integer (fixed_t.create (Precision := 12) (-6144)) * 4096
  + fixed_members.fraction (fixed_t.create (Precision := 12) (-6144))
  = -6144 + 4096 /\
  fixed_members.integer half * 4096 + fixed_members.fraction half = 2048.
Proof.
  assert (Hp : 0 < 12 < 31) by lia.
  pose proof (integer_fraction_split 12 Hp (fixed_t.create (-6144)))
    as (_ & _ & _ & Hnegative & _).
  pose proof (integer_fraction_split 12 Hp half) as (_ & _ & Hpositive & _).
  split; [ exact Hp | ].
  split; [ reflexivity | ].
  split; [ reflexivity | ].
  split.
  - apply Hnegative; vm_compute; [ reflexivity | discriminate ].
  - apply Hpositive. vm_compute. discriminate.
Defined.

Lemma of_int_round_trip_witness :
  0 < 12 < 31 /\
  - 2 ^ (31 - 12) <= -3 < 2 ^ (31 - 12) /\
  - 2 ^ (31 - 12) <= 7 < 2 ^ (31 - 12) /\
  fixed_members.integer (fixed_t.of_int 12 (-3)) = -3 /\
  fixed_members.ltb (fixed_t.of_int 12 (-3)) (fixed_t.of_int 12 7) = true.
Proof.
  assert (Hp : 0 < 12 < 31) by lia.
  assert (Hn : - 2 ^ (31 - 12) <= -3 < 2 ^ (31 - 12)) by (simpl; lia).
  assert (Hm : - 2 ^ (31 - 12) <= 7 < 2 ^ (31 - 12)) by (simpl; lia).
  destruct (of_int_round_trip 12 Hp (-3) 7 Hn Hm)
    as (_ & Hinteger & _ & Horder & _).
  split; [ exact Hp | ].
  split; [ exact Hn | ].
  split; [ exact Hm | ].
  split; [ exact Hinteger | exact Horder ].
Defined.

Lemma multiplication_division_by_one_witness :
  0 < 12 < 31 /\
  INT_MIN <= fixed_t.data half <= INT_MAX /\
  fixed_members.multiplication half (fixed_t.of_int 12 1) = half /\
  fixed_members.division half (fixed_t.of_int 12 1) = Ok half /\
  fixed_members.division half (fixed_t.create 0)
  = Fatal "Other's internal value is zero".
Proof.
  assert (Hp : 0 < 12 < 31) by lia.
  assert (Hrange : INT_MIN <= fixed_t.data half <= INT_MAX)
    by (vm_compute; split; discriminate).
  destruct (multiplication_division_by_one 12 Hp half Hrange)
    as (Hmul & _ & _ & Hdiv & _ & Hzero & _).
  split; [ exact Hp | ].
  split; [ exact Hrange | ].
  split; [ exact Hmul | ].
  split; [ exact Hdiv | exact Hzero ].
Defined.

Lemma multiplication_of_ints_witness :
  0 < 12 < 31 /\
  - 2 ^ (31 - 12) <= -3 * 7 < 2 ^ (31 - 12) /\
  fixed_members.multiplication (fixed_t.of_int 12 (-3)) (fixed_t.of_int 12 7)
  = fixed_t.of_int 12 (-21).
Proof.
  assert (Hp : 0 < 12 < 31) by lia.
  split; [ exact Hp | ].
  split; [ simpl; lia | ].
  apply (multiplication_of_ints 12 Hp (-3) 7); simpl; lia.
Defined.


Lemma of_int_fraction_round_trip_witness :
  0 < 12 < 31 /\
  -1 < 0 /\
  0 <= 5 < 2 ^ (31 - 12) /\
  0 <= 100 < fixed_t.scale 12 /\
  fixed_members.of_int_fraction 12 5 (-1) = Fatal "Fraction is negative" /\
  exists a,
    fixed_members.of_int_fraction 12 5 100 = Ok a /\
    fixed_members.integer a = 5 /\
    fixed_members.fraction a = 100.
Proof.
  assert (Hp : 0 < 12 < 31) by lia.
  assert (Hi : 0 <= 5 < 2 ^ (31 - 12)) by (simpl; lia).
  assert (Hf : 0 <= 100 < fixed_t.scale 12) by (vm_compute; split; [ discriminate | reflexivity ]).
  destruct (of_int_fraction_round_trip 12 Hp 5 (-1)) as [Hfatal _].
  destruct (of_int_fraction_round_trip 12 Hp 5 100) as [_ Hbuilt].
  destruct (Hbuilt Hi Hf) as (a & Hok & _ & Hinteger & Hfraction).
  split; [ exact Hp | ].
  split; [ lia | ].
  split; [ exact Hi | ].
  split; [ exact Hf | ].
  split; [ apply Hfatal; lia | ].
  exists a. repeat split; assumption.
Defined.

Lemma add_sub_neg_witness :
  INT_MIN <= fixed_t.data half <= INT_MAX /\
  INT_MIN <= fixed_t.data half + fixed_t.data one <= INT_MAX /\
  fixed_t.data half <> INT_MIN /\
  fixed_members.sub (fixed_t.add half one) one = half /\
  fixed_members.neg (fixed_members.neg half) = half.
Proof.
  assert (Ha : INT_MIN <= fixed_t.data half <= INT_MAX)
    by (vm_compute; split; discriminate).
  assert (Hsum : INT_MIN <= fixed_t.data half + fixed_t.data one <= INT_MAX)
    by (vm_compute; split; discriminate).
  assert (Hmin : fixed_t.data half <> INT_MIN) by (vm_compute; discriminate).
  destruct (add_sub_neg 12 half one Ha Hsum) as (Hsub & _ & Hneg & _).
  split; [ exact Ha | ].
  split; [ exact Hsum | ].
  split; [ exact Hmin | ].
  split; [ exact Hsub | apply Hneg, Hmin ].
Defined.

Lemma convert_to_lower_precision_witness :
  0 < 8 < 12 /\
  12 < 31 /\
  fixed_t.data (fixed_t.convert 8 minus_one) = -256 /\
  fixed_members.integer (fixed_t.convert 8 minus_one)
  = fixed_members.integer minus_one.
Proof.
  assert (HP : 0 < 8 < 12) by lia.
  assert (HQ : 12 < 31) by lia.
  destruct (convert_to_lower_precision 8 12 minus_one HP HQ)
    as (Hdata & _ & Hinteger & _).
  split; [ exact HP | ].
  split; [ exact HQ | ].
  split; [ rewrite Hdata; reflexivity | exact Hinteger ].
Defined.

Lemma move_transfers_ownership_witness :
  -128 <= bg_tiles_ptr._handle (bg_tiles_ptr.mk 5) <= 127 /\
  bg_tiles_ptr.destructor (fun h released => h :: released)
    (snd (bg_tiles_ptr.move_construct (bg_tiles_ptr.mk 5)))
    (bg_tiles_ptr.destructor (fun h released => h :: released)
       (fst (bg_tiles_ptr.move_construct (bg_tiles_ptr.mk 5))) [])
  = [5].
Proof.
  assert (Hrange : -128 <= bg_tiles_ptr._handle (bg_tiles_ptr.mk 5) <= 127)
    by (simpl; lia).
  split; [ exact Hrange | ].
  destruct (move_transfers_ownership (fun h released => h :: released)
              (bg_tiles_ptr.mk 5) (bg_tiles_ptr.mk 9) [] Hrange)
    as (_ & _ & _ & Honce & _).
  rewrite Honce. reflexivity.
Defined.

Lemma graphics_index_table_witness :
  (13 < 28)%nat /\
  object_message._graphics_index 50 = Ok 30 /\
  object_message._graphics_index 60 = Ok 32 /\
  50 < 60 /\
  30 + 2 <= 32 /\
  succeeds (object_message._graphics_index 6) = false.
Proof.
  destruct (graphics_index_table 50 60 30 32 13)
    as (_ & Hnth & _ & Horder).
  destruct (graphics_index_table 6 6 0 0 0) as (Hlisted & _).
  split; [ lia | ].
  split; [ exact (Hnth ltac:(lia)) | ].
  split; [ reflexivity | ].
  split; [ lia | ].
  split; [ apply Horder; [ reflexivity | reflexivity | lia ] | ].
  rewrite Hlisted. reflexivity.
Defined.

(** * Order and range of the hardware-scale conversions *)

Lemma rescaled_monotone (bits : Z) (v w : fixed) :
  0 < bits < 12 ->
  fixed_t.data v <= fixed_t.data w ->
  rescaled bits v <= rescaled bits w.
Proof.
  intros Hbits Hle. unfold rescaled.
  apply Z.quot_le_mono; [ apply Z.pow_pos_nonneg; lia | exact Hle ].
Qed.

(** X24: a larger volume or speed never converts to a smaller hardware
    value, and a volume between 0 and 1 converts to a music volume between
    0 and 1024, a sound volume between 0 and 255 and a DMG volume between 0
    and 8, with 1 giving 1024, 255 and 8. *)
Theorem hw_conversions_monotone (v w : fixed) :
  fixed_t.data v <= fixed_t.data w ->
  (_hw_music_volume v <= _hw_music_volume w /\
   _hw_sound_volume v <= _hw_sound_volume w /\
   _hw_dmg_music_volume v <= _hw_dmg_music_volume w /\
   _hw_sound_speed v <= _hw_sound_speed w) /\
  (0 <= fixed_t.data v -> fixed_t.data w <= 4096 ->
     0 <= _hw_music_volume v /\ _hw_music_volume w <= 1024 /\
     0 <= _hw_sound_volume v /\ _hw_sound_volume w <= 255 /\
     0 <= _hw_dmg_music_volume v /\ _hw_dmg_music_volume w <= 8) /\
  _hw_music_volume one = 1024 /\
  _hw_sound_volume one = 255 /\
  _hw_dmg_music_volume one = 8.
Proof.
  intros Hle.
  unfold _hw_music_volume, _hw_sound_volume, _hw_dmg_music_volume,
    _hw_sound_speed.
  rewrite !min_spec, !convert_down by lia.
  pose proof (rescaled_monotone 10 v w ltac:(lia) Hle) as H10.
  pose proof (rescaled_monotone 8 v w ltac:(lia) Hle) as H8.
  pose proof (rescaled_monotone 3 v w ltac:(lia) Hle) as H3.
  split; [ repeat split; lia | ].
  split; [ | repeat split ].
  intros Hv Hw.
  assert (Hlow : forall bits, 0 < bits < 12 -> 0 <= rescaled bits v).
  { intros bits Hbits. unfold rescaled.
    apply Z.quot_pos; [ exact Hv | apply Z.pow_pos_nonneg; lia ]. }
  assert (Hhigh : forall bits, 0 < bits < 12 ->
                    rescaled bits w <= rescaled bits one).
  { intros bits Hbits. apply rescaled_monotone; [ exact Hbits | exact Hw ]. }
  pose proof (Hlow 10 ltac:(lia)). pose proof (Hlow 8 ltac:(lia)).
  pose proof (Hlow 3 ltac:(lia)).
  pose proof (Hhigh 10 ltac:(lia)) as Hh10.
  pose proof (Hhigh 3 ltac:(lia)) as Hh3.
  change (rescaled 10 one) with 1024 in Hh10.
  change (rescaled 3 one) with 8 in Hh3.
  repeat split; lia.
Qed.

Lemma hw_conversions_monotone_witness :
  fixed_t.data half <= fixed_t.data one /\
  0 <= fixed_t.data half /\
  fixed_t.data one <= 4096 /\
  _hw_sound_volume half <= _hw_sound_volume one /\
  _hw_dmg_music_volume one <= 8.
Proof.
  assert (Hle : fixed_t.data half <= fixed_t.data one)
    by (vm_compute; discriminate).
  assert (Hlow : 0 <= fixed_t.data half) by (vm_compute; discriminate).
  assert (Hhigh : fixed_t.data one <= 4096) by (vm_compute; discriminate).
  destruct (hw_conversions_monotone half one Hle)
    as ((_ & Hsound & _) & Hrange & _).
  destruct (Hrange Hlow Hhigh) as (_ & _ & _ & _ & _ & Hdmg).
  split; [ exact Hle | ].
  split; [ exact Hlow | ].
  split; [ exact Hhigh | ].
  split; [ exact Hsound | exact Hdmg ].
Defined.
